(** * Base On-Chain Pay mini app: the wallet session workflow

    A shallow embedding of the two variants of the [BasePayMiniApp] React
    component found in the repository:

    - [Part000]: the variant of [src/unnamed/part_000], written against
      ethers v6 (named imports [BrowserProvider], [parseEther], ...; name
      resolution, balance check and fee selection in [sendPayment]);
    - [Part001]: the variant of [src/unnamed/part_001], written against
      ethers v5 ([ethers.providers.Web3Provider], [ethers.utils.*]).

    The component is a thin shell around an injected wallet.  Every
    [await]ed wallet operation is an interaction with the outside world; it
    is answered by a [Wallet], which sees the whole history of the run, and
    it is recorded, with its answer, in the run's log.  The React state
    setters are recorded in the same log.  An [async] function becomes a
    computation in a small monad of state, log and JavaScript completions
    (normal, [return], [throw]).  Every awaited promise is taken to settle
    (fulfil or reject).

    Embedded are [sendPayment], [connectWallet], [setupSigner],
    [resetConnection] and the [accountsChanged] listener of both variants,
    and, further down, [shortAddress], the [chainChanged] listener of
    part_000 and the mount effect with its cleanup.  The markup is left
    out, but for the test that shows the connect button.

    Each variant is read with the ethers version it imports.  Amounts of
    wei are integers here.  In ethers v5 ([part_001]) they are big-number
    objects and chain identifiers are numbers.  In ethers v6 ([part_000])
    amounts, fees and chain identifiers are bigints: a bigint has no method
    [lt], is never [===] to a number, and is falsy when it is [0n]; and
    v6 has no export [hexValue], so that the name imported by [part_000] is
    [undefined] and calling it throws.  The other functions imported from
    ethers return normally, except [parseEther], which throws on a
    malformed amount. *)

From Stdlib Require Import ZArith List String Ascii Bool Lia.
From Stdlib Require Import SpecFloat DecimalString.
Import ListNotations.
Open Scope string_scope.
Open Scope Z_scope.

Set Implicit Arguments.

(** ** JavaScript values the component handles *)

(** A thrown value, as far as the handlers look at it.  Anything but
    [undefined] and [null] is given by its [code], its [message] and the
    string [String(err)]; a code that is not a number can never be
    [=== 4001] and is folded into [None].  A wallet may also reject with
    [undefined] or [null], which the provider hands on as it is. *)
Inductive JsError :=
| mkError (code : option Z) (message : option string) (text : string)
| nullish (undefined : bool).   (* [undefined], or else [null] *)

(** [err?.code] *)
Definition err_code (e : JsError) : option Z :=
  match e with mkError c _ _ => c | nullish _ => None end.

(** [err?.message] *)
Definition err_message (e : JsError) : option string :=
  match e with mkError _ m _ => m | nullish _ => None end.

(** [String(err)] *)
Definition err_string (e : JsError) : string :=
  match e with
  | mkError _ _ s => s
  | nullish true => "undefined"
  | nullish false => "null"
  end.

(** What the runtime throws when a property of [null] or [undefined] is
    read, or when something that is not a function is called. *)
Definition TypeError (msg : string) : JsError :=
  mkError None (Some msg) ("TypeError: " ++ msg).

(** The result of a call that may throw, or of a promise that settles. *)
Inductive Result (A : Type) : Type :=
| Ok (a : A)
| Throw (e : JsError).
Arguments Ok {A} a.
Arguments Throw {A} e.

(** A JavaScript number is a binary64 float. *)
Definition number := spec_float.
Definition isNaN (x : number) : bool :=
  match x with S754_nan => true | _ => false end.
(** [x <= 0] *)
Definition le_zero (x : number) : bool := SFleb x (S754_zero false).

(** Truthiness of a string: only the empty string is falsy. *)
Definition truthy_string (s : string) : bool :=
  match s with EmptyString => false | String _ _ => true end.

(** Truthiness of [null | string]. *)
Definition truthy_opt_string (o : option string) : bool :=
  match o with Some s => truthy_string s | None => false end.

(** Truthiness of [null | object]. *)
Definition truthy_obj {A} (o : option A) : bool :=
  match o with Some _ => true | None => false end.

(** Truthiness of [null | bigint]: [0n] is falsy. *)
Definition truthy_bigint (o : option Z) : bool :=
  match o with Some z => negb (z =? 0) | None => false end.

(** [a !== n] for a bigint [a] and a number [n]: values of different
    types are never strictly equal. *)
Definition bigint_differs_from_number (a n : Z) : bool := true.

(** [err?.message || String(err)], and [err?.message || err] in a string
    concatenation: with the optional chaining no thrown value makes the
    expression fail. *)
Definition describe (e : JsError) : string :=
  match err_message e with
  | Some m => if truthy_string m then m else err_string e
  | None => err_string e
  end.

(** [err.message || err] in a string concatenation: reading [message] off
    [undefined] or [null] throws. *)
Definition message_or_self (e : JsError) : Result string :=
  match e with
  | mkError _ _ _ => Ok (describe e)
  | nullish undefined =>
    Throw (TypeError ("Cannot read properties of "
                      ++ (if undefined then "undefined" else "null")
                      ++ " (reading 'message')"))
  end.

(** A number in a template literal. *)
Definition string_of_Z (z : Z) : string := NilZero.string_of_int (Z.to_int z).

(** ** The functions imported from the runtime and from ethers

    None of them is code of the repository; the component is verified for
    every implementation of them. *)
Class Runtime := {
  (** [Number(s)] *)
  Number : string -> number;
  (** [s.trim()] *)
  trim : string -> string;
  (** [isAddress(s)] *)
  isAddress : string -> bool;
  (** [parseEther(s)], in wei; throws on a malformed amount *)
  parseEther : string -> Result Z;
  (** [formatEther(wei)] *)
  formatEther : Z -> string;
  (** [ethers.utils.hexValue(n)] of ethers v5 *)
  hexValue : Z -> string
}.

(** ** Data model *)

Record Network := mkNetwork {
  name : string;
  chainId : Z
}.

(** The provider object built over [window.ethereum]. *)
Inductive Provider := InjectedProvider.

(** The signing handle returned by [getSigner]. *)
Inductive Signer := JsonRpcSigner (id : nat).

Record FeeData := mkFeeData {
  maxFeePerGas : option Z;
  maxPriorityFeePerGas : option Z;
  gasPrice : option Z
}.

(** The transaction object handed to [signer.sendTransaction]; an absent
    property is [None]. *)
Record TxRequest := mkTx {
  tx_to : string;
  tx_value : Z;
  tx_maxFeePerGas : option Z;
  tx_maxPriorityFeePerGas : option Z;
  tx_gasPrice : option Z
}.

Record TxResponse := mkResponse { hash : string }.

Record Receipt := mkReceipt {
  receipt_status : option Z;
  blockNumber : Z
}.

Record NativeCurrency := mkCurrency {
  currency_name : string;
  symbol : string;
  decimals : Z
}.

(** The parameter of [wallet_addEthereumChain]. *)
Record AddChainParameter := mkAddChain {
  add_chainId : string;
  chainName : string;
  nativeCurrency : NativeCurrency;
  rpcUrls : list string;
  blockExplorerUrls : list string
}.

(** The [params] array of [provider.send(method, params)]. *)
Inductive RpcParams :=
| NoParams
| SwitchChain (chainIdHex : string)
| AddChain (p : AddChainParameter).

(** The component's React state. *)
Record UiState := mkUi {
  provider : option Provider;
  signer : option Signer;
  address : string;
  balance : string;
  network : option Network;
  recipient : string;
  amount : string;
  status : string;
  sending : bool
}.

(** A call of one of the state setters. *)
Inductive Update :=
| SetProvider (v : option Provider)
| SetSigner (v : option Signer)
| SetAddress (v : string)
| SetBalance (v : string)
| SetNetwork (v : option Network)
| SetRecipient (v : string)
| SetAmount (v : string)
| SetStatus (v : string)
| SetSending (v : bool).

Definition apply_update (u : Update) (st : UiState) : UiState :=
  match u with
  | SetProvider v => mkUi v (signer st) (address st) (balance st) (network st)
                          (recipient st) (amount st) (status st) (sending st)
  | SetSigner v => mkUi (provider st) v (address st) (balance st) (network st)
                        (recipient st) (amount st) (status st) (sending st)
  | SetAddress v => mkUi (provider st) (signer st) v (balance st) (network st)
                         (recipient st) (amount st) (status st) (sending st)
  | SetBalance v => mkUi (provider st) (signer st) (address st) v (network st)
                         (recipient st) (amount st) (status st) (sending st)
  | SetNetwork v => mkUi (provider st) (signer st) (address st) (balance st) v
                         (recipient st) (amount st) (status st) (sending st)
  | SetRecipient v => mkUi (provider st) (signer st) (address st) (balance st)
                           (network st) v (amount st) (status st) (sending st)
  | SetAmount v => mkUi (provider st) (signer st) (address st) (balance st)
                        (network st) (recipient st) v (status st) (sending st)
  | SetStatus v => mkUi (provider st) (signer st) (address st) (balance st)
                        (network st) (recipient st) (amount st) v (sending st)
  | SetSending v => mkUi (provider st) (signer st) (address st) (balance st)
                         (network st) (recipient st) (amount st) (status st) v
  end.

(** ** Events of a run *)

(** Everything a handler does to the outside: the wallet operations, each
    with the answer it got, the state setters, [e.preventDefault()] and the
    console. *)
Inductive Event :=
| EvSend (method : string) (params : RpcParams) (r : Result unit)
| EvGetNetwork (r : Result Network)
| EvGetSigner (r : Result Signer)
| EvGetAddress (s : Signer) (r : Result string)
| EvGetBalance (addr : string) (r : Result Z)
| EvResolveName (nm : string) (r : Result (option string))
| EvGetFeeData (r : Result (option FeeData))
| EvSendTransaction (s : Signer) (tx : TxRequest) (r : Result TxResponse)
| EvWait (resp : TxResponse) (confirms : Z) (r : Result (option Receipt))
| EvSet (u : Update)
| EvPreventDefault
| EvConsole (level : string) (e : JsError).

(** The injected wallet, seen through the provider and the signer.  Each
    operation is answered from the history of the run so far. *)
Record Wallet := mkWallet {
  has_ethereum : bool;   (* [window.ethereum] is defined *)
  w_send : list Event -> string -> RpcParams -> Result unit;
  w_getNetwork : list Event -> Result Network;
  w_getSigner : list Event -> Result Signer;
  w_getAddress : list Event -> Signer -> Result string;
  w_getBalance : list Event -> string -> Result Z;
  w_resolveName : list Event -> string -> Result (option string);
  w_getFeeData : list Event -> Result (option FeeData);
  w_sendTransaction : list Event -> Signer -> TxRequest -> Result TxResponse;
  w_wait : list Event -> TxResponse -> Z -> Result (option Receipt)
}.

(** Classification of events. *)
Definition is_broadcast (e : Event) : bool :=
  match e with EvSendTransaction _ _ _ => true | _ => false end.

Definition is_wait (e : Event) : bool :=
  match e with EvWait _ _ _ => true | _ => false end.

(** A network or wallet call: any operation answered by the wallet. *)
Definition is_wallet_call (e : Event) : bool :=
  match e with
  | EvSet _ | EvPreventDefault | EvConsole _ _ => false
  | _ => true
  end.

(** ** The monad of handlers *)

(** How a statement completes. *)
Inductive Completion (A : Type) : Type :=
| Normal (a : A)
| Returned                (* [return;] *)
| Thrown (e : JsError).
Arguments Normal {A} a.
Arguments Returned {A}.
Arguments Thrown {A} e.

Record Store := mkStore {
  ui : UiState;        (* the state after the setters called so far *)
  log : list Event     (* the events so far, oldest first *)
}.

Definition M (A : Type) : Type := Wallet -> Store -> Completion A * Store.

Definition ret {A} (a : A) : M A := fun _ s => (Normal a, s).

Definition bind {A B} (m : M A) (k : A -> M B) : M B :=
  fun w s =>
    match m w s with
    | (Normal a, s') => k a w s'
    | (Returned, s') => (Returned, s')
    | (Thrown e, s') => (Thrown e, s')
    end.

Declare Scope js_scope.
Delimit Scope js_scope with js.
Notation "x <- m ;; k" := (bind m (fun x => k))
  (at level 100, m at next level, right associativity) : js_scope.
Notation "m ;; k" := (bind m (fun _ => k))
  (at level 100, right associativity) : js_scope.
Open Scope js_scope.

(** [return;] *)
Definition return_ {A} : M A := fun _ s => (Returned, s).

(** [throw e] *)
Definition throw {A} (e : JsError) : M A := fun _ s => (Thrown e, s).

Definition record (e : Event) : M unit :=
  fun _ s => (Normal tt, mkStore (ui s) (log s ++ [e])).

(** A state setter. *)
Definition set (u : Update) : M unit :=
  fun _ s => (Normal tt, mkStore (apply_update u (ui s)) (log s ++ [EvSet u])).

(** The value of a call that may throw. *)
Definition settle {A} (r : Result A) : M A :=
  match r with Ok a => ret a | Throw e => throw e end.

(** A wallet operation is started: the wallet answers from the history,
    and the call is logged with its answer, which is handed over as a
    pending result. *)
Definition start {A} (ask : Wallet -> list Event -> Result A)
    (ev : Result A -> Event) : M (Result A) :=
  fun w s =>
    let r := ask w (log s) in
    (Normal r, mkStore (ui s) (log s ++ [ev r])).

(** [await] of a wallet operation: it is started and its answer is
    delivered, as a value or as an exception. *)
Definition await {A} (ask : Wallet -> list Event -> Result A)
    (ev : Result A -> Event) : M A :=
  bind (start ask ev) settle.

(** [try { body } catch (err) { handler }] *)
Definition try_catch {A} (body : M A) (handler : JsError -> M A) : M A :=
  fun w s =>
    match body w s with
    | (Thrown e, s') => handler e w s'
    | other => other
    end.

(** [try { body } finally { fin }]: [fin] runs however [body] completes,
    and the completion of [body] stands unless [fin] is abrupt itself. *)
Definition try_finally {A} (body : M A) (fin : M unit) : M A :=
  fun w s =>
    match body w s with
    | (c, s') =>
      match fin w s' with
      | (Normal _, s'') => (c, s'')
      | (Returned, s'') => (Returned, s'')
      | (Thrown e, s'') => (Thrown e, s'')
      end
    end.

(** A call of an async function of the component: its [return] ends the
    callee only. *)
Definition call (f : M unit) : M unit :=
  fun w s =>
    match f w s with
    | (Returned, s') => (Normal tt, s')
    | other => other
    end.

(** [if (c) { body }] *)
Definition when (c : bool) (body : M unit) : M unit :=
  if c then body else ret tt.

(** A handler reads the state of the render it was created in: the names
    [provider], [amount], ... inside it denote that state, [closure],
    whatever the setters do meanwhile; the setters act on the state at the
    time of the call, [current]. *)
Definition run_in (handler : UiState -> M unit) (w : Wallet)
    (closure current : UiState) : Completion unit * Store :=
  handler closure w (mkStore current []).

(** The run of a handler of the latest render, as the ones the form and
    the connect button are rendered with: the two states are the same. *)
Definition run (handler : UiState -> M unit) (w : Wallet) (cl : UiState)
  : Completion unit * Store :=
  handler cl w (mkStore cl []).

Definition final_ui (handler : UiState -> M unit) w cl : UiState :=
  ui (snd (run handler w cl)).

Definition trace (handler : UiState -> M unit) w cl : list Event :=
  log (snd (run handler w cl)).

(** The wallet operations, as the component calls them. *)
Definition provider_send (method : string) (params : RpcParams) : M unit :=
  await (fun w h => w_send w h method params) (EvSend method params).
Definition getNetwork : M Network :=
  await w_getNetwork EvGetNetwork.
Definition getSigner : M Signer :=
  await w_getSigner EvGetSigner.
Definition getAddress (s : Signer) : M string :=
  await (fun w h => w_getAddress w h s) (EvGetAddress s).
Definition getBalance (addr : string) : M Z :=
  await (fun w h => w_getBalance w h addr) (EvGetBalance addr).
Definition resolveName (nm : string) : M (option string) :=
  await (fun w h => w_resolveName w h nm) (EvResolveName nm).
Definition getFeeData : M (option FeeData) :=
  await w_getFeeData EvGetFeeData.
Definition sendTransaction (s : Signer) (tx : TxRequest) : M TxResponse :=
  await (fun w h => w_sendTransaction w h s tx) (EvSendTransaction s tx).
Definition wait (resp : TxResponse) (confirms : Z) : M (option Receipt) :=
  await (fun w h => w_wait w h resp confirms) (EvWait resp confirms).

(** A method call on a state variable that may be [null]. *)
Definition on_object {A B} (o : option A) (what : string) (k : A -> M B) : M B :=
  match o with
  | Some a => k a
  | None => throw (TypeError ("Cannot read properties of null (reading '" ++ what ++ "')"))
  end.

Definition BASE_CHAIN_ID : Z := 8453.

(** [window.ethereum], as a truth value. *)
Definition window_ethereum : M bool :=
  fun w s => (Normal (has_ethereum w), s).

(** The parameter with which the target chain is registered, given the
    chain identifier in hexadecimal. *)
Definition base_chain_of (chainIdHex : string) : AddChainParameter :=
  {| add_chainId := chainIdHex;
     chainName := "Base";
     nativeCurrency := mkCurrency "Ether" "ETH" 18;
     rpcUrls := ["https://mainnet.base.org"];
     blockExplorerUrls := ["https://basescan.org"] |}.

Definition base_chain `{Runtime} : AddChainParameter :=
  base_chain_of (hexValue BASE_CHAIN_ID).

Definition string_or_empty (o : option string) : string :=
  match o with Some s => s | None => "" end.

Definition opt_Z_eqb (o : option Z) (z : Z) : bool :=
  match o with Some x => x =? z | None => false end.

(** ** The variant of [src/unnamed/part_000]

    It imports ethers v6 by name ([BrowserProvider], "Updated for ethers
    v6"). *)
Module Part000.
Section Component.
Context `{RT : Runtime}.

(** The imported [hexValue]: ethers v6 exports no such function; in the
    bundled page the name is [undefined], and the call [hexValue(n)]
    throws. *)
Definition hexValue (n : Z) : Result string :=
  Throw (TypeError "hexValue is not a function").

(** [balBN.lt(value)]: [balBN] is the bigint that [getBalance] of ethers
    v6 returns; it has no method [lt], and the call throws. *)
Definition lt (balBN value : Z) : Result bool :=
  Throw (TypeError "balBN.lt is not a function").

(** [setupSigner(p)]; [cl] is the state of the render the caller closes
    over ([address] in the handler is read from it). *)
Definition setupSigner (cl : UiState) : M unit :=
  try_catch
    (s <- getSigner ;;
     set (SetSigner (Some s)) ;;
     addr <- getAddress s ;;
     set (SetAddress addr) ;;
     bal <- getBalance addr ;;
     set (SetBalance (formatEther bal)) ;;
     net <- getNetwork ;;
     set (SetNetwork (Some net)))
    (fun err =>
       record (EvConsole "warn" err) ;;
       when (negb (truthy_string (address cl)))
         (set (SetStatus "Please connect wallet (approve account access).")))%js.

Definition resetConnection : M unit :=
  set (SetProvider None) ;;
  set (SetSigner None) ;;
  set (SetAddress "") ;;
  set (SetBalance "0.0") ;;
  set (SetNetwork None) ;;
  set (SetStatus "") ;;
  eth <- window_ethereum ;;
  when eth (set (SetProvider (Some InjectedProvider))).

(** The [accountsChanged] listener; [None] is a missing account list. *)
Definition accountsChanged (accounts : option (list string)) (cl : UiState)
  : M unit :=
  match accounts with
  | None | Some [] => call resetConnection ;; return_
  | Some (a :: _) => set (SetAddress a) ;; call (setupSigner cl)
  end.

(** The switch request; its parameter is evaluated before the call. *)
Definition switch_to_base : M unit :=
  chainIdHex <- settle (hexValue BASE_CHAIN_ID) ;;
  provider_send "wallet_switchEthereumChain" (SwitchChain chainIdHex).

(** The add request, likewise. *)
Definition add_base : M unit :=
  chainIdHex <- settle (hexValue BASE_CHAIN_ID) ;;
  provider_send "wallet_addEthereumChain" (AddChain (base_chain_of chainIdHex)).

Definition connectWallet (cl : UiState) : M unit :=
  if negb (truthy_obj (provider cl)) then
    set (SetStatus "No injected wallet found. Install MetaMask or Coinbase Wallet.") ;;
    return_
  else
    try_catch
      (set (SetStatus "Requesting wallet connection…") ;;
       provider_send "eth_requestAccounts" NoParams ;;
       net <- getNetwork ;;
       set (SetNetwork (Some net)) ;;
       when (bigint_differs_from_number (chainId net) BASE_CHAIN_ID)
         (set (SetStatus ("You're on " ++ name net
                          ++ " — attempting to switch to Base...")) ;;
          try_catch switch_to_base
            (fun switchErr =>
               try_catch
                 (add_base ;;
                  switch_to_base)
                 (fun addErr =>
                    record (EvConsole "warn" addErr) ;;
                    set (SetStatus "Please switch your wallet to the Base network manually."))) ;;
          newNet <- getNetwork ;;
          set (SetNetwork (Some newNet))) ;;
       call (setupSigner cl) ;;
       set (SetStatus "Connected"))
      (fun err =>
         record (EvConsole "error" err) ;;
         set (SetStatus ("Connection failed: " ++ describe err))).

(** [!amount || isNaN(Number(amount)) || Number(amount) <= 0] *)
Definition invalid_amount (amt : string) : bool :=
  negb (truthy_string amt) || isNaN (Number amt) || le_zero (Number amt).

(** The fee fields of the transaction, from the fee suggestion; the fees
    are bigints. *)
Definition with_fees (feeData : option FeeData) (to : string) (value : Z)
  : TxRequest :=
  let maxFee := match feeData with Some f => maxFeePerGas f | None => None end in
  let maxPrio := match feeData with Some f => maxPriorityFeePerGas f | None => None end in
  let price := match feeData with Some f => gasPrice f | None => None end in
  if truthy_bigint maxFee && truthy_bigint maxPrio then
    mkTx to value maxFee maxPrio None
  else if truthy_bigint price then
    mkTx to value None None price
  else
    mkTx to value None None None.

Definition sendPayment (cl : UiState) : M unit :=
  record EvPreventDefault ;;
  if negb (truthy_obj (provider cl)) || negb (truthy_obj (signer cl)) then
    set (SetStatus "Wallet not connected") ;;
    return_
  else if invalid_amount (amount cl) then
    set (SetStatus "Invalid amount (must be a number > 0)") ;;
    return_
  else
    let resolvedRecipient := trim (recipient cl) in
    try_finally
      (try_catch
         (resolvedRecipient <-
            (if negb (isAddress resolvedRecipient) then
               maybeResolved <-
                 on_object (provider cl) "resolveName"
                   (fun _ => resolveName resolvedRecipient) ;;
               if negb (truthy_opt_string maybeResolved) then
                 set (SetStatus "Recipient is not a valid address or resolvable ENS name") ;;
                 return_
               else ret (string_or_empty maybeResolved)
             else ret resolvedRecipient) ;;
          value <- settle (parseEther (amount cl)) ;;
          balBN <- on_object (provider cl) "getBalance"
                     (fun _ => getBalance (address cl)) ;;
          less <- settle (lt balBN value) ;;
          if less : bool then
            set (SetStatus "Insufficient balance for the requested amount (does not include gas).") ;;
            return_
          else
            set (SetSending true) ;;
            set (SetStatus "Preparing transaction…") ;;
            feeData <- on_object (provider cl) "getFeeData" (fun _ => getFeeData) ;;
            let tx := with_fees feeData resolvedRecipient value in
            response <- on_object (signer cl) "sendTransaction"
                          (fun sg => sendTransaction sg tx) ;;
            set (SetStatus ("Transaction sent — hash: " ++ hash response
                            ++ ". Waiting for confirmation...")) ;;
            receipt <- wait response 1 ;;
            match receipt with
            | Some rc =>
              if opt_Z_eqb (receipt_status rc) 1 then
                set (SetStatus ("Payment confirmed in block "
                                ++ string_of_Z (blockNumber rc)
                                ++ ". Tx: " ++ hash response)) ;;
                newBal <- on_object (provider cl) "getBalance"
                            (fun _ => getBalance (address cl)) ;;
                set (SetBalance (formatEther newBal)) ;;
                set (SetRecipient "") ;;
                set (SetAmount "")
              else set (SetStatus "Transaction failed or reverted")
            | None => set (SetStatus "Transaction failed or reverted")
            end)
         (fun err =>
            record (EvConsole "error" err) ;;
            if opt_Z_eqb (err_code err) 4001 then
              set (SetStatus "User rejected the transaction")
            else
              set (SetStatus ("Send failed: " ++ describe err))))
      (set (SetSending false)).

End Component.
End Part000.

(** ** The variant of [src/unnamed/part_001]

    It uses ethers v5 ([ethers.providers.Web3Provider], [ethers.utils]). *)
Module Part001.
Section Component.
Context `{RT : Runtime}.

(** [setupSigner(p)] up to its first [await]: this part runs inside the
    caller, who does not await the rest.  The outcome is the pending
    [s.getAddress()], or [None] when the function has ended already. *)
Definition setupSigner_sync : M (option (Result string)) :=
  try_catch
    (s <- getSigner ;;
     set (SetSigner (Some s)) ;;
     pending <- start (fun w h => w_getAddress w h s) (EvGetAddress s) ;;
     ret (Some pending))
    (fun err =>
       record (EvConsole "warn" err) ;;
       ret None).

(** [setupSigner(p)] from its first [await] on. *)
Definition setupSigner_rest (pending : option (Result string)) : M unit :=
  match pending with
  | None => ret tt
  | Some p =>
    try_catch
      (addr <- settle p ;;
       set (SetAddress addr) ;;
       bal <- getBalance addr ;;
       set (SetBalance (formatEther bal)) ;;
       net <- getNetwork ;;
       set (SetNetwork (Some net)))
      (fun err => record (EvConsole "warn" err))
  end.

Definition setupSigner : M unit :=
  pending <- setupSigner_sync ;;
  setupSigner_rest pending.

Definition resetConnection : M unit :=
  set (SetProvider None) ;;
  set (SetSigner None) ;;
  set (SetAddress "") ;;
  set (SetBalance "0") ;;
  set (SetNetwork None) ;;
  set (SetStatus "").

(** The [accountsChanged] listener; [None] is a missing account list, on
    which [accounts.length] throws. *)
Definition accountsChanged (accounts : option (list string)) : M unit :=
  on_object accounts "length"
    (fun l =>
       match l with
       | [] => call resetConnection
       | a :: _ => set (SetAddress a) ;; call setupSigner
       end).

Definition switch_to_base : M unit :=
  provider_send "wallet_switchEthereumChain" (SwitchChain (hexValue BASE_CHAIN_ID)).

(** [setupSigner(provider)] is called without [await]: its rest runs once
    the handler has set the status. *)
Definition connectWallet (cl : UiState) : M unit :=
  if negb (truthy_obj (provider cl)) then
    set (SetStatus "No injected wallet found. Install MetaMask or Coinbase Wallet.") ;;
    return_
  else
    pending <-
      try_catch
        (set (SetStatus "Connecting…") ;;
         provider_send "eth_requestAccounts" NoParams ;;
         pNetwork <- getNetwork ;;
         set (SetNetwork (Some pNetwork)) ;;
         when (negb (chainId pNetwork =? BASE_CHAIN_ID))
           (try_catch switch_to_base
              (fun switchError =>
                 try_catch
                   (provider_send "wallet_addEthereumChain" (AddChain base_chain))
                   (fun addError => record (EvConsole "warn" addError)))) ;;
         pending <- setupSigner_sync ;;
         set (SetStatus "Connected") ;;
         ret pending)
        (fun err =>
           record (EvConsole "error" err) ;;
           msg <- settle (message_or_self err) ;;
           set (SetStatus ("Connection failed: " ++ msg)) ;;
           ret None) ;;
    setupSigner_rest pending.

(** [amount || "0"] *)
Definition amount_or_zero (amt : string) : string :=
  if truthy_string amt then amt else "0".

Definition sendPayment (cl : UiState) : M unit :=
  record EvPreventDefault ;;
  if negb (truthy_obj (signer cl)) then
    set (SetStatus "Wallet not connected") ;;
    return_
  else if negb (isAddress (recipient cl)) then
    set (SetStatus "Invalid recipient address") ;;
    return_
  else
    value <- try_catch
               (settle (parseEther (amount_or_zero (amount cl))))
               (fun err => set (SetStatus "Invalid amount") ;; return_) ;;
    try_finally
      (try_catch
         (set (SetSending true) ;;
          set (SetStatus "Preparing transaction…") ;;
          let tx := mkTx (recipient cl) value None None None in
          response <- on_object (signer cl) "sendTransaction"
                        (fun sg => sendTransaction sg tx) ;;
          set (SetStatus ("Transaction sent — hash: " ++ hash response)) ;;
          receipt <- wait response 1 ;;
          match receipt with
          | Some rc =>
            if opt_Z_eqb (receipt_status rc) 1 then
              set (SetStatus ("Payment confirmed in block "
                              ++ string_of_Z (blockNumber rc)
                              ++ ". Tx: " ++ hash response)) ;;
              bal <- on_object (provider cl) "getBalance"
                       (fun _ => getBalance (address cl)) ;;
              set (SetBalance (formatEther bal)) ;;
              set (SetRecipient "") ;;
              set (SetAmount "")
            else set (SetStatus "Transaction failed or reverted")
          | None => set (SetStatus "Transaction failed or reverted")
          end)
         (fun err =>
            record (EvConsole "error" err) ;;
            msg <- settle (message_or_self err) ;;
            set (SetStatus ("Send failed: " ++ msg))))
      (set (SetSending false)).

End Component.
End Part001.

(** ** A reference runtime

    An executable stand-in for the imported functions, used to run the
    component on concrete inputs.  [Number] follows the grammar of numeric
    strings and rounds to nearest, ties to even; [parseEther] and
    [formatEther] are the 18-decimal fixed-point conversions; [isAddress]
    accepts the 40-digit hexadecimal forms, with or without the prefix
    [0x], in a single letter case, and of the mixed-case (checksummed)
    forms the ones listed in [checksummed]; it knows no ICAP form. *)
Module Reference.

Definition is_space (c : ascii) : bool :=
  let n := nat_of_ascii c in
  ((9 <=? n) && (n <=? 13))%nat || (n =? 32)%nat.

Fixpoint trim_left (s : string) : string :=
  match s with
  | String c s' => if is_space c then trim_left s' else s
  | EmptyString => EmptyString
  end.

Fixpoint rev_string (s acc : string) : string :=
  match s with
  | String c s' => rev_string s' (String c acc)
  | EmptyString => acc
  end.

Definition trim (s : string) : string :=
  rev_string (trim_left (rev_string (trim_left s) "")) "".

(** The value of a digit in a base up to 16. *)
Definition digit_value (base : Z) (c : ascii) : option Z :=
  let n := Z.of_nat (nat_of_ascii c) in
  let v := if (48 <=? n) && (n <=? 57) then n - 48
           else if (97 <=? n) && (n <=? 102) then n - 87
           else if (65 <=? n) && (n <=? 70) then n - 55
           else 16 in
  if v <? base then Some v else None.

(** The number written by a string of digits; [None] if another character
    occurs.  The empty string writes 0. *)
Fixpoint digits (base : Z) (s : string) (acc : Z) : option Z :=
  match s with
  | EmptyString => Some acc
  | String c s' =>
    match digit_value base c with
    | Some v => digits base s' (base * acc + v)
    | None => None
    end
  end.

(** Splits at the first character satisfying [p]. *)
Fixpoint split_at (p : ascii -> bool) (s : string) : string * option string :=
  match s with
  | EmptyString => (EmptyString, None)
  | String c s' =>
    if p c then (EmptyString, Some s')
    else let '(a, b) := split_at p s' in (String c a, b)
  end.

Definition is_char (x : ascii) (c : ascii) : bool := Ascii.eqb x c.

(** An optional sign: [(negative, rest)]. *)
Definition sign (s : string) : bool * string :=
  match s with
  | String "-" s' => (true, s')
  | String "+" s' => (false, s')
  | _ => (false, s)
  end.

(** [m * 10^e], rounded to binary64. *)
Definition round_decimal (neg : bool) (m e : Z) : number :=
  if m =? 0 then S754_zero neg
  else if 0 <=? e then
    binary_normalize 53 1024 ((if neg then -1 else 1) * (m * 10 ^ e)) 0 false
  else
    let d := 10 ^ (- e) in
    let k := Z.max 0 (Z.log2 d + 66 - Z.log2 m) in
    let n := m * 2 ^ k in
    let r := n mod d in
    let loc := if r =? 0 then loc_Exact else loc_Inexact (2 * r ?= d) in
    binary_round_aux 53 1024 neg (n / d) (- k) loc.

(** An unsigned decimal literal: digits, optional fraction, optional
    exponent. *)
Definition unsigned_decimal (neg : bool) (s : string) : number :=
  let '(mant, ex) :=
    split_at (fun c => is_char "e" c || is_char "E" c) s in
  let '(ip, fp) := split_at (is_char ".") mant in
  let fp' := match fp with Some f => f | None => EmptyString end in
  let expo :=
    match ex with
    | None => Some 0
    | Some x =>
      let '(eneg, xd) := sign x in
      match xd with
      | EmptyString => None
      | _ => option_map (fun v => if eneg then - v else v) (digits 10 xd 0)
      end
    end in
  if (String.length ip + String.length fp' =? 0)%nat then S754_nan
  else
    match digits 10 ip 0, digits 10 fp' 0, expo with
    | Some i, Some f, Some x =>
      let scale := Z.of_nat (String.length fp') in
      round_decimal neg (i * 10 ^ scale + f) (x - scale)
    | _, _, _ => S754_nan
    end.

Definition radix_literal (base : Z) (s : string) : number :=
  match s with
  | EmptyString => S754_nan
  | _ => match digits base s 0 with
         | Some v => binary_normalize 53 1024 v 0 false
         | None => S754_nan
         end
  end.

Definition Number (s : string) : number :=
  match trim s with
  | EmptyString => S754_zero false
  | String "0" (String "x" r) | String "0" (String "X" r) => radix_literal 16 r
  | String "0" (String "o" r) | String "0" (String "O" r) => radix_literal 8 r
  | String "0" (String "b" r) | String "0" (String "B" r) => radix_literal 2 r
  | t =>
    let '(neg, u) := sign t in
    if String.eqb u "Infinity" then S754_infinity neg
    else unsigned_decimal neg u
  end.

(** The thrown value of the reference [parseEther]. *)
Definition invalid_value : JsError :=
  mkError None (Some "invalid decimal value") "Error: invalid decimal value".

Definition parseEther (s : string) : Result Z :=
  let '(neg, u) :=
    match s with String "-" s' => (true, s') | _ => (false, s) end in
  let '(ip, fp) := split_at (is_char ".") u in
  let fp' := match fp with Some f => f | None => EmptyString end in
  if (String.length ip + String.length fp' =? 0)%nat then Throw invalid_value
  else
    match digits 10 ip 0, digits 10 fp' 0 with
    | Some i, Some f =>
      let scale := Z.of_nat (String.length fp') in
      let wei := if scale <=? 18 then Some (f * 10 ^ (18 - scale))
                 else if f mod 10 ^ (scale - 18) =? 0
                      then Some (f / 10 ^ (scale - 18)) else None in
      match wei with
      | Some fw => Ok ((if neg then -1 else 1) * (i * 10 ^ 18 + fw))
      | None => Throw invalid_value
      end
    | _, _ => Throw invalid_value
    end.

(** The digits of [n] in [len] places. *)
Fixpoint places (len : nat) (n : Z) (acc : string) : string :=
  match len with
  | O => acc
  | S len' =>
    places len' (n / 10)
      (String (ascii_of_nat (48 + Z.to_nat (n mod 10))) acc)
  end.

(** Drops the zeros at the end, keeping one digit at least. *)
Fixpoint strip_zeros (s : string) : string :=
  match s with
  | EmptyString => EmptyString
  | String c s' =>
    match strip_zeros s' with
    | EmptyString => if is_char "0" c then EmptyString else String c EmptyString
    | t => String c t
    end
  end.

Definition formatEther (wei : Z) : string :=
  let a := Z.abs wei in
  let frac := match strip_zeros (places 18 (a mod 10 ^ 18) "") with
              | EmptyString => "0"
              | t => t
              end in
  (if wei <? 0 then "-" else "") ++ string_of_Z (a / 10 ^ 18) ++ "." ++ frac.

Definition hex_digit (v : Z) : ascii :=
  ascii_of_nat (Z.to_nat (if v <? 10 then 48 + v else 87 + v)).

Fixpoint hex_digits (fuel : nat) (n : Z) (acc : string) : string :=
  match fuel with
  | O => acc
  | S fuel' =>
    let acc' := String (hex_digit (n mod 16)) acc in
    if n / 16 =? 0 then acc' else hex_digits fuel' (n / 16) acc'
  end.

Definition hexValue (n : Z) : string :=
  "0x" ++ hex_digits (S (Z.to_nat (Z.log2 n))) n "".

Fixpoint all_chars (p : ascii -> bool) (s : string) : bool :=
  match s with
  | EmptyString => true
  | String c s' => p c && all_chars p s'
  end.

Definition is_hex (c : ascii) : bool :=
  match digit_value 16 c with Some _ => true | None => false end.
Definition not_upper (c : ascii) : bool :=
  let n := nat_of_ascii c in negb ((65 <=? n) && (n <=? 70))%nat.
Definition not_lower (c : ascii) : bool :=
  let n := nat_of_ascii c in negb ((97 <=? n) && (n <=? 102))%nat.

(** Mixed-case addresses whose checksum is known to be right. *)
Definition checksummed : list string :=
  [ "0x5aAeb6053F3E94C9b9A09f33669435E7Ef1BeAed";
    "0xfB6916095ca1df60bB79Ce92cE3Ea74c37c5d359" ].

Definition isAddress (s : string) : bool :=
  let h := match s with String "0" (String "x" h) => h | _ => s end in
  (String.length h =? 40)%nat && all_chars is_hex h
  && (all_chars not_upper h || all_chars not_lower h
      || existsb (String.eqb ("0x" ++ h)) checksummed).

#[export] Instance runtime : Runtime :=
  Build_Runtime Number trim isAddress parseEther formatEther hexValue.

End Reference.

(** ** The two variants side by side *)

Inductive Variant := part_000 | part_001.

(** The initial state, from the [useState] calls. *)
Definition initial_state (v : Variant) : UiState :=
  match v with
  | part_000 => mkUi None None "" "0.0" None "" "" "" false
  | part_001 => mkUi None None "" "0" None "" "" "" false
  end.

Definition sendPayment `{Runtime} (v : Variant) : UiState -> M unit :=
  match v with
  | part_000 => Part000.sendPayment
  | part_001 => Part001.sendPayment
  end.

Definition connectWallet `{Runtime} (v : Variant) : UiState -> M unit :=
  match v with
  | part_000 => Part000.connectWallet
  | part_001 => Part001.connectWallet
  end.

Definition accountsChanged `{Runtime} (v : Variant)
    (accounts : option (list string)) : UiState -> M unit :=
  match v with
  | part_000 => Part000.accountsChanged accounts
  | part_001 => fun _ => Part001.accountsChanged accounts
  end.

(** The submit button is rendered with [disabled={sending}]. *)
Definition submit_disabled (st : UiState) : bool := sending st.

(** ** Reading a trace *)

(** The events before the first broadcast. *)
Fixpoint before_broadcast (l : list Event) : list Event :=
  match l with
  | [] => []
  | e :: l' => if is_broadcast e then [] else e :: before_broadcast l'
  end.

(** The events after the first confirmation wait. *)
Fixpoint after_wait (l : list Event) : list Event :=
  match l with
  | [] => []
  | e :: l' => if is_wait e then l' else after_wait l'
  end.

(** The answer to the first balance query. *)
Fixpoint first_balance (l : list Event) : option (Result Z) :=
  match l with
  | [] => None
  | EvGetBalance _ r :: _ => Some r
  | _ :: l' => first_balance l'
  end.

(** The answer to the first network query. *)
Fixpoint first_network (l : list Event) : option (Result Network) :=
  match l with
  | [] => None
  | EvGetNetwork r :: _ => Some r
  | _ :: l' => first_network l'
  end.

Definition is_rpc (e : Event) : bool :=
  match e with EvSend _ _ _ => true | _ => false end.

Definition is_fee_query (e : Event) : bool :=
  match e with EvGetFeeData _ => true | _ => false end.

Definition is_resolve (e : Event) : bool :=
  match e with EvResolveName _ _ => true | _ => false end.

Definition is_broadcast_or_wait (e : Event) : bool :=
  is_broadcast e || is_wait e.

(** The three requests of the connect workflow. *)
Definition request_accounts (r : Result unit) : Event :=
  EvSend "eth_requestAccounts" NoParams r.
Definition switch_request `{Runtime} (r : Result unit) : Event :=
  EvSend "wallet_switchEthereumChain" (SwitchChain (hexValue BASE_CHAIN_ID)) r.
Definition add_request `{Runtime} (r : Result unit) : Event :=
  EvSend "wallet_addEthereumChain" (AddChain base_chain) r.

(** ** Concrete wallets and states *)
Module Scenario.

Definition alice : string := "0x00000000000000000000000000000000000a11ce".
Definition bob : string := "0x5aAeb6053F3E94C9b9A09f33669435E7Ef1BeAed".
Definition vitalik : string := "0xd8da6bf26964af9d7eed9e03e53415d37aa96045".

Definition base : Network := mkNetwork "base" 8453.
Definition mainnet : Network := mkNetwork "mainnet" 1.

Definition one_ether : Z := 1000000000000000000.

(** The error of a wallet whose user declines the request. *)
Definition user_rejected : JsError :=
  mkError (Some 4001) (Some "User denied transaction signature.")
          "Error: User denied transaction signature.".

(** The same failure without the code. *)
Definition uncoded : JsError :=
  mkError None (Some "User denied transaction signature.")
          "Error: User denied transaction signature.".

Definition unrecognized_chain : JsError :=
  mkError (Some 4902) (Some "Unrecognized chain ID.") "Error: Unrecognized chain ID.".

Definition rpc_down : JsError :=
  mkError None (Some "could not detect network") "Error: could not detect network".

(** A wallet on Base that grants every request.  The account holds one
    ether until a transfer goes out. *)
Definition happy : Wallet :=
  {| has_ethereum := true;
     w_send := fun _ _ _ => Ok tt;
     w_getNetwork := fun _ => Ok base;
     w_getSigner := fun _ => Ok (JsonRpcSigner 0);
     w_getAddress := fun _ _ => Ok alice;
     w_getBalance := fun h _ =>
       Ok (if existsb is_broadcast h then 989979000000000000 else one_ether);
     w_resolveName := fun _ nm =>
       Ok (if String.eqb nm "vitalik.eth" then Some vitalik else None);
     w_getFeeData := fun _ =>
       Ok (Some (mkFeeData (Some 2000000000) (Some 1000000) (Some 1500000000)));
     w_sendTransaction := fun _ _ _ => Ok (mkResponse "0xabc");
     w_wait := fun _ _ _ => Ok (Some (mkReceipt (Some 1) 7)) |}.

(** Variations of a wallet. *)
Definition with_balance (f : list Event -> string -> Result Z) (w : Wallet)
  : Wallet :=
  mkWallet (has_ethereum w) (w_send w) (w_getNetwork w) (w_getSigner w)
    (w_getAddress w) f (w_resolveName w) (w_getFeeData w)
    (w_sendTransaction w) (w_wait w).

Definition with_broadcast
    (f : list Event -> Signer -> TxRequest -> Result TxResponse) (w : Wallet)
  : Wallet :=
  mkWallet (has_ethereum w) (w_send w) (w_getNetwork w) (w_getSigner w)
    (w_getAddress w) (w_getBalance w) (w_resolveName w) (w_getFeeData w)
    f (w_wait w).

Definition with_rpc
    (f : list Event -> string -> RpcParams -> Result unit)
    (n : list Event -> Result Network) (w : Wallet) : Wallet :=
  mkWallet (has_ethereum w) f n (w_getSigner w)
    (w_getAddress w) (w_getBalance w) (w_resolveName w) (w_getFeeData w)
    (w_sendTransaction w) (w_wait w).

(** The account is empty. *)
Definition broke : Wallet := with_balance (fun _ _ => Ok 0) happy.

(** The user declines the transfer in the wallet. *)
Definition declining : Wallet :=
  with_broadcast (fun _ _ _ => Throw user_rejected) happy.

(** The same wallet, failing without the rejection code. *)
Definition failing : Wallet :=
  with_broadcast (fun _ _ _ => Throw uncoded) happy.

(** The node stops answering balance queries once the transfer is out. *)
Definition flaky : Wallet :=
  with_balance
    (fun h _ => if existsb is_broadcast h then Throw rpc_down else Ok one_ether)
    happy.

(** A wallet on another chain that does not know Base: switching fails
    until the chain has been added. *)
Definition is_add (e : Event) : bool :=
  match e with
  | EvSend "wallet_addEthereumChain" _ (Ok _) => true
  | _ => false
  end.

Definition elsewhere : Wallet :=
  with_rpc
    (fun h method _ =>
       if String.eqb method "wallet_switchEthereumChain"
          && negb (existsb is_add h)
       then Throw unrecognized_chain else Ok tt)
    (fun h => Ok (if existsb is_add h then base else mainnet))
    happy.

(** The state of a connected session with the form filled in. *)
Definition filled (to amt : string) : UiState :=
  mkUi (Some InjectedProvider) (Some (JsonRpcSigner 0)) alice "1.0"
       (Some base) to amt "" false.

(** The state before connecting, as the component is first rendered with
    a wallet present. *)
Definition fresh (v : Variant) : UiState :=
  apply_update (SetProvider (Some InjectedProvider)) (initial_state v).

End Scenario.

(** ** The rest of the component: listeners, effect and display *)

(** [s.slice(start, end)]; [None] is a missing [end].  Positions count
    characters of the string, which agree with JavaScript's code units on
    the hexadecimal strings the component slices. *)
Definition slice (s : string) (start : Z) (stop : option Z) : string :=
  let len := Z.of_nat (String.length s) in
  let position i := if i <? 0 then Z.max (len + i) 0 else Z.min i len in
  let from := position start in
  let to := match stop with Some e => position e | None => len end in
  substring (Z.to_nat from) (Z.to_nat (Z.max (to - from) 0)) s.

(** A function object, named after the function expression that creates
    it; the effect runs once, so each expression is evaluated once. *)
Inductive Fn :=
| accountsChangedFn      (* the [accountsChanged] listener *)
| chainChangedFn         (* the [chainChanged] listener *)
| cleanupFn (k : nat).   (* the [k]-th [() => {}] of the cleanup of part_001 *)

(** [window.ethereum], by the methods it has. *)
Record Injected := mkInjected {
  has_on : bool;
  has_removeListener : bool
}.

(** What the mount effect and its cleanup do. *)
Inductive EffectEvent :=
| EffSet (u : Update)
| EffOn (event : string) (f : Fn)
| EffRemoveListener (event : string) (f : Fn).

Definition registered (l : list EffectEvent) : list (string * Fn) :=
  flat_map (fun e => match e with EffOn n f => [(n, f)] | _ => [] end) l.

Definition removed (l : list EffectEvent) : list (string * Fn) :=
  flat_map (fun e => match e with EffRemoveListener n f => [(n, f)] | _ => [] end) l.

Module Part000UI.
Section Component.
Context `{RT : Runtime}.

(** [getAddress] of ethers: the checksummed form of an address; throws on
    anything else. *)
Variable getAddress : string -> Result string.

Definition shortAddress (addr : string) : string :=
  match getAddress addr with
  | Ok s => slice s 0 (Some 6) ++ "..." ++ slice s (-4) None
  | Throw _ => addr
  end.

(** The [chainChanged] listener. *)
Definition chainChanged (cl : UiState) : M unit :=
  try_catch
    (net <- getNetwork ;;
     set (SetNetwork (Some net)) ;;
     call (Part000.setupSigner cl) ;;
     set (SetStatus ("Switched to network " ++ name net ++ " ("
                     ++ string_of_Z (chainId net) ++ ")")))
    (fun err => record (EvConsole "warn" err)).

(** The body of the mount effect: what it does, and whether the two refs
    hold the listeners afterwards. *)
Definition mount (ethereum : option Injected) : list EffectEvent * bool :=
  match ethereum with
  | Some eth =>
    (EffSet (SetProvider (Some InjectedProvider))
     :: (if has_on eth
         then [EffOn "accountsChanged" accountsChangedFn;
               EffOn "chainChanged" chainChangedFn]
         else []),
     true)
  | None =>
    ([EffSet (SetStatus "No injected wallet found (MetaMask / Coinbase Wallet).")],
     false)
  end.

(** The cleanup the effect returns; [refs] tells whether the refs hold the
    listeners. *)
Definition cleanup (ethereum : option Injected) (refs : bool)
  : list EffectEvent :=
  match ethereum with
  | Some eth =>
    if has_removeListener eth then
      (if refs then [EffRemoveListener "accountsChanged" accountsChangedFn] else [])
      ++ (if refs then [EffRemoveListener "chainChanged" chainChangedFn] else [])
    else []
  | None => []
  end.

(** The header shows the account when [address] is truthy, the connect
    button otherwise. *)
Definition shows_connect_button (st : UiState) : bool :=
  negb (truthy_string (address st)).

End Component.
End Part000UI.

Module Part001UI.

(** The body of the mount effect: what it does, and the error it ends
    with, if any; it calls [window.ethereum.on] without looking whether
    it is there. *)
Definition mount (ethereum : option Injected)
  : list EffectEvent * option JsError :=
  match ethereum with
  | Some eth =>
    if has_on eth then
      ([EffSet (SetProvider (Some InjectedProvider));
        EffOn "accountsChanged" accountsChangedFn;
        EffOn "chainChanged" chainChangedFn],
       None)
    else
      ([EffSet (SetProvider (Some InjectedProvider))],
       Some (TypeError "window.ethereum.on is not a function"))
  | None => ([], None)
  end.

(** The cleanup: it hands two new functions to [removeListener]. *)
Definition cleanup (ethereum : option Injected) : list EffectEvent :=
  match ethereum with
  | Some eth =>
    if has_removeListener eth then
      [EffRemoveListener "accountsChanged" (cleanupFn 0);
       EffRemoveListener "chainChanged" (cleanupFn 1)]
    else []
  | None => []
  end.

(** The header shows the account when [address] is truthy, the connect
    button otherwise. *)
Definition shows_connect_button (st : UiState) : bool :=
  negb (truthy_string (address st)).

End Part001UI.

(** The status [sendPayment] shows once the broadcast is accepted. *)
Definition sent_status (v : Variant) (response : TxResponse) : string :=
  match v with
  | part_000 => "Transaction sent — hash: " ++ hash response
                ++ ". Waiting for confirmation..."
  | part_001 => "Transaction sent — hash: " ++ hash response
  end.

Definition is_console (e : Event) : bool :=
  match e with EvConsole _ _ => true | _ => false end.

Definition setupSigner `{Runtime} (v : Variant) : UiState -> M unit :=
  match v with
  | part_000 => Part000.setupSigner
  | part_001 => fun _ => Part001.setupSigner
  end.

Definition is_signer_query (e : Event) : bool :=
  match e with EvGetSigner _ => true | _ => false end.

Definition is_address_query (e : Event) : bool :=
  match e with EvGetAddress _ _ => true | _ => false end.

Definition is_balance_query (e : Event) : bool :=
  match e with EvGetBalance _ _ => true | _ => false end.

Definition is_network_query (e : Event) : bool :=
  match e with EvGetNetwork _ => true | _ => false end.

(** ** More wallets and states *)
Module MoreScenarios.
Import Scenario.

(** The user declines the account request. *)
Definition locked : Wallet :=
  with_rpc
    (fun _ method _ =>
       if String.eqb method "eth_requestAccounts"
       then Throw user_rejected else Ok tt)
    (w_getNetwork happy) happy.

(** The wallet turns the account request down with [undefined]. *)
Definition silent : Wallet :=
  with_rpc
    (fun _ method _ =>
       if String.eqb method "eth_requestAccounts"
       then Throw (nullish true) else Ok tt)
    (w_getNetwork happy) happy.

(** The node answers no balance query. *)
Definition no_balance : Wallet := with_balance (fun _ _ => Throw rpc_down) happy.

(** The node answers no network query. *)
Definition offline : Wallet :=
  with_rpc (w_send happy) (fun _ => Throw rpc_down) happy.

(** A session whose provider is gone while the signer is there. *)
Definition orphaned (to amt : string) : UiState :=
  mkUi None (Some (JsonRpcSigner 0)) alice "1.0" (Some base) to amt "" false.

Definition invalid_address : JsError :=
  mkError None (Some "invalid address") "Error: invalid address".

(** A [getAddress] that knows the addresses of [Reference.checksummed]. *)
Definition checksum (a : string) : Result string :=
  if existsb (String.eqb a) Reference.checksummed
  then Ok a else Throw invalid_address.

End MoreScenarios.

(** * Proofs *)

(** Symbolic execution of a handler: unfold the monad, then split on the
    innermost undecided test, in program order. *)
Ltac head_match t :=
  lazymatch t with
  | match ?x with _ => _ end => x
  | ?f _ => head_match f
  end.

Ltac stuck t :=
  match t with
  | _ => let x := head_match t in stuck x
  | _ => t
  end.

Ltac split_next :=
  lazymatch goal with
  | |- context [match ?x with _ => _ end] =>
    let a := stuck x in destruct a eqn:?
  end.

Ltac unfold_js :=
  cbv beta iota zeta delta
    [run final_ui trace sendPayment connectWallet accountsChanged
     Part000.sendPayment Part001.sendPayment
     Part000.connectWallet Part001.connectWallet
     Part000.accountsChanged Part001.accountsChanged
     Part000.setupSigner Part001.setupSigner
     Part001.setupSigner_sync Part001.setupSigner_rest
     Part000.resetConnection Part001.resetConnection
     Part000.switch_to_base Part000.add_base Part001.switch_to_base
     Part000.hexValue Part000.lt bigint_differs_from_number
     message_or_self TypeError window_ethereum
     bind ret return_ throw record set settle await start try_catch
     try_finally call when on_object
     provider_send getNetwork getSigner getAddress getBalance resolveName
     getFeeData sendTransaction wait
     truthy_obj negb orb andb
     ui log fst snd app].

Ltac exec := unfold_js; repeat (split_next; unfold_js).

(** The same on the one copy of the run a goal is about: the run is
    named, executed in its defining equation, and put back. *)
Ltac unfold_js_in E :=
  cbv beta iota zeta delta
    [run final_ui trace sendPayment connectWallet accountsChanged
     Part000.sendPayment Part001.sendPayment
     Part000.connectWallet Part001.connectWallet
     Part000.accountsChanged Part001.accountsChanged
     Part000.setupSigner Part001.setupSigner
     Part001.setupSigner_sync Part001.setupSigner_rest
     Part000.resetConnection Part001.resetConnection
     Part000.switch_to_base Part000.add_base Part001.switch_to_base
     Part000.hexValue Part000.lt bigint_differs_from_number
     message_or_self TypeError window_ethereum
     bind ret return_ throw record set settle await start try_catch
     try_finally call when on_object
     provider_send getNetwork getSigner getAddress getBalance resolveName
     getFeeData sendTransaction wait
     truthy_obj negb orb andb
     ui log fst snd app] in E.

Ltac split_next_in E :=
  lazymatch type of E with
  | context [match ?x with _ => _ end] =>
    let a := stuck x in destruct a eqn:?
  end.

Ltac exec_in E := unfold_js_in E; repeat (split_next_in E; unfold_js_in E).

Ltac exec_run :=
  unfold trace, final_ui;
  lazymatch goal with
  | |- context [run ?h ?w ?cl] =>
    let out := fresh "out" in
    let E := fresh "E" in
    remember (run h w cl) as out eqn:E; exec_in E; subst out
  end.

(** Closes a goal about a finished run. *)
Ltac tidy :=
  simpl in *; intros;
  repeat match goal with
         | H : _ /\ _ |- _ => destruct H
         | H : Some _ = Some _ |- _ => injection H as H; subst
         | H : Ok _ = Ok _ |- _ => injection H as H; subst
         | H : (_ <? _) = true |- _ => apply Z.ltb_lt in H
         | H : (_ <? _) = false |- _ => apply Z.ltb_ge in H
         | H : (_ =? _) = true |- _ => apply Z.eqb_eq in H
         | H : (_ =? _) = false |- _ => apply Z.eqb_neq in H
         end;
  try discriminate; try lia; try congruence.

Section Properties.
Context {RT : Runtime}.

(** C10.  A run of [sendPayment], in either variant, that sets the sending
    flag ends with the flag cleared, so the submit button, disabled while
    the flag is set, is enabled again; this holds however the run goes on
    (confirmed, failed receipt, thrown error, rejection by the user). *)
Theorem sendPayment_reenables_submit (v : Variant) w cl :
  In (EvSet (SetSending true)) (trace (sendPayment v) w cl) ->
  submit_disabled (final_ui (sendPayment v) w cl) = false.
Proof.
  destruct v; exec_run; simpl; intuition congruence.
Qed.

(** C9.  On an [accountsChanged] event with an empty account list the
    session is cleared, in either variant: the address is the empty string,
    the balance is the zero display value the component starts with, and
    the signer and the network are null. *)
Theorem accountsChanged_empty_clears_session (v : Variant) w cl :
  let st := final_ui (accountsChanged v (Some [])) w cl in
  address st = "" /\
  balance st = balance (initial_state v) /\
  signer st = None /\
  network st = None.
Proof.
  destruct v; exec_run; simpl; auto.
Qed.

(** C2, as amended.  In the [part_000] variant, with a wallet connected,
    an amount that is empty, not a number, or not above zero is rejected
    with the invalid-amount status before any wallet call.  The [part_001]
    variant looks at the amount after the recipient, reads an empty
    amount as ["0"], and rejects the amounts [parseEther] throws on, with
    its own invalid-amount status and before any wallet call. *)
Theorem invalid_amount_rejected w cl :
  (provider cl <> None -> signer cl <> None ->
   amount cl = "" \/ isNaN (Number (amount cl)) = true
   \/ le_zero (Number (amount cl)) = true ->
   status (final_ui Part000.sendPayment w cl)
   = "Invalid amount (must be a number > 0)"
   /\ fst (run Part000.sendPayment w cl) = Returned
   /\ filter is_wallet_call (trace Part000.sendPayment w cl) = [])
  /\
  (forall e,
      signer cl <> None -> isAddress (recipient cl) = true ->
      parseEther (Part001.amount_or_zero (amount cl)) = Throw e ->
      status (final_ui Part001.sendPayment w cl) = "Invalid amount"
      /\ fst (run Part001.sendPayment w cl) = Returned
      /\ filter is_wallet_call (trace Part001.sendPayment w cl) = []).
Proof.
  split.
  - intros Hp Hs Hbad.
    assert (Hinv : Part000.invalid_amount (amount cl) = true).
    { unfold Part000.invalid_amount.
      destruct Hbad as [He | [Hn | Hz]].
      - rewrite He. reflexivity.
      - rewrite Hn. apply orb_true_iff. left. apply orb_true_r.
      - rewrite Hz. apply orb_true_r. }
    unfold_js.
    destruct (provider cl); [| congruence].
    destruct (signer cl); [| congruence].
    unfold_js. rewrite Hinv. simpl. auto.
  - intros e Hs Ha Hthrow.
    unfold_js.
    destruct (signer cl); [| congruence].
    unfold_js. rewrite Ha. unfold_js. rewrite Hthrow. simpl. auto.
Qed.

(** C3, as amended.  In the [part_000] variant, with a wallet connected
    and a valid amount, a recipient that is not a well-formed address
    (once trimmed) is sent to name resolution, which is the first wallet
    call of the run; when resolution yields no address, the run sets the
    unresolved-recipient status and returns with no further wallet call.
    The [part_001] variant resolves no names: with a signer, a recipient
    that is not a well-formed address gets the invalid-recipient status
    and no wallet call at all. *)
Theorem unresolved_recipient_rejected w cl :
  (provider cl <> None -> signer cl <> None ->
   Part000.invalid_amount (amount cl) = false ->
   isAddress (trim (recipient cl)) = false ->
   exists r rest,
     filter is_wallet_call (trace Part000.sendPayment w cl)
     = EvResolveName (trim (recipient cl)) r :: rest
     /\ forall maybeResolved,
         r = Ok maybeResolved ->
         truthy_opt_string maybeResolved = false ->
         status (final_ui Part000.sendPayment w cl)
         = "Recipient is not a valid address or resolvable ENS name"
         /\ fst (run Part000.sendPayment w cl) = Returned
         /\ rest = [])
  /\
  (signer cl <> None -> isAddress (recipient cl) = false ->
   status (final_ui Part001.sendPayment w cl) = "Invalid recipient address"
   /\ fst (run Part001.sendPayment w cl) = Returned
   /\ filter is_wallet_call (trace Part001.sendPayment w cl) = []).
Proof.
  split.
  - intros Hp Hs Hamt Haddr.
    unfold_js.
    destruct (provider cl); [| congruence].
    destruct (signer cl); [| congruence].
    unfold_js. rewrite Hamt, Haddr.
    exec; simpl; eexists; eexists; (split; [reflexivity |]); tidy; auto.
  - intros Hs Haddr.
    unfold_js.
    destruct (signer cl); [| congruence].
    unfold_js. rewrite Haddr. simpl. auto.
Qed.

(** Splits a membership in a finished trace into its cases. *)
Ltac pick_event :=
  repeat match goal with
         | H : _ \/ _ |- _ => destruct H
         | H : False |- _ => destruct H
         | H : In _ _ |- _ => simpl in H
         | H : @eq Event _ _ |- _ =>
           first [discriminate H | inversion H; subst; clear H]
         end.

(** C1, as amended.  The [part_001] variant has no balance check: with a
    signer, a well-formed recipient and an amount that [parseEther]
    accepts, the transfer is broadcast whatever the balance of the account
    is, and no balance query comes before the broadcast. *)
Theorem part_001_checks_no_balance w cl value :
  signer cl <> None ->
  isAddress (recipient cl) = true ->
  parseEther (Part001.amount_or_zero (amount cl)) = Ok value ->
  (exists sg r,
      filter is_broadcast (trace Part001.sendPayment w cl)
      = [EvSendTransaction sg (mkTx (recipient cl) value None None None) r])
  /\ first_balance (before_broadcast (trace Part001.sendPayment w cl)) = None.
Proof.
  intros Hs Haddr Hparse. unfold_js.
  destruct (signer cl); [| congruence].
  unfold_js. rewrite Haddr. unfold_js. rewrite Hparse.
  exec; simpl; eauto.
Qed.

(** C5, as amended.  When the wallet refuses the broadcast with the
    rejection code 4001, the [part_001] variant, which does not look at
    the code, reports the failure with the message of the error; it leaves
    the session (address, balance, signer, network) and the two form
    fields as they were, and broadcasts once only. *)
Theorem rejection_reported_as_failure w cl sg tx e :
  In (EvSendTransaction sg tx (Throw e)) (trace Part001.sendPayment w cl) ->
  err_code e = Some 4001 ->
  let st := final_ui Part001.sendPayment w cl in
  status st = "Send failed: " ++ describe e
  /\ (address st = address cl /\ balance st = balance cl
      /\ signer st = signer cl /\ network st = network cl)
  /\ (recipient st = recipient cl /\ amount st = amount cl)
  /\ List.length (filter is_broadcast (trace Part001.sendPayment w cl)) = 1%nat.
Proof.
  intros Hin Hcode.
  assert (Hin' : In (EvSendTransaction sg tx (Throw e))
                    (filter is_broadcast (trace Part001.sendPayment w cl)))
    by (apply filter_In; split; [exact Hin | reflexivity]).
  clear Hin. revert Hin'.
  exec_run; cbn [filter is_broadcast app ui log snd];
    intros Hin; pick_event; try discriminate Hcode; simpl; auto 10.
Qed.

(** C6, as amended.  The [part_001] variant leaves the fees to the
    wallet: it makes no fee query, and what it broadcasts carries no fee
    field. *)
Theorem part_001_leaves_fees_to_wallet w cl :
  filter is_fee_query (trace Part001.sendPayment w cl) = []
  /\ forall sg tx r,
      In (EvSendTransaction sg tx r) (trace Part001.sendPayment w cl) ->
      tx_maxFeePerGas tx = None
      /\ tx_maxPriorityFeePerGas tx = None
      /\ tx_gasPrice tx = None.
Proof.
  exec_run; (split; [reflexivity |]); intros sg0 tx0 r0 Hin; pick_event;
    simpl; auto.
Qed.

(** C7, as amended.  While [part_001] connects, when the network first
    reported is not the target chain 8453, a switch request for chain 8453
    follows the account request; when the wallet refuses it, a request to
    add the chain (name, native currency, RPC URL, block explorer URL)
    follows; and no further request is sent, whether the chain was added
    or not. *)
Theorem switch_then_add w cl net :
  first_network (trace Part001.connectWallet w cl) = Some (Ok net) ->
  chainId net <> BASE_CHAIN_ID ->
  let requests := filter is_rpc (trace Part001.connectWallet w cl) in
  exists r1,
    match r1 with
    | Ok _ => requests = [request_accounts (Ok tt); switch_request r1]
    | Throw _ =>
      exists r2,
        requests = [request_accounts (Ok tt); switch_request r1; add_request r2]
    end.
Proof.
  unfold request_accounts, switch_request, add_request.
  exec_run; tidy;
    repeat match goal with u : unit |- _ => destruct u end;
    try (eexists (Ok tt); reflexivity);
    try (eexists (Throw _); eexists; reflexivity).
Qed.

End Properties.

(** * Further properties of the component *)

(** Runs a handler outside the list of [unfold_js_in]: [E] is the equation
    of the run, [prepare] unfolds the handler in it. *)
Ltac exec_run_by prepare :=
  unfold trace, final_ui;
  lazymatch goal with
  | |- context [run ?h ?w ?cl] =>
    let out := fresh "out" in
    let E := fresh "E" in
    remember (run h w cl) as out eqn:E;
    unfold run in E; prepare E; exec_in E; subst out
  end.

(** Replaces a membership in a trace by one in the events of its kind. *)
Ltac narrow H p :=
  apply (fun e l (Hin : In e l) (Hp : p e = true) =>
           proj2 (filter_In p e l) (conj Hin Hp)) in H; [| reflexivity].

(** Splits a membership in a list of events into its cases. *)
Ltac pick :=
  repeat match goal with
         | H : _ \/ _ |- _ => destruct H
         | H : False |- _ => destruct H
         | H : In _ _ |- _ => simpl in H
         | H : @eq Event _ _ |- _ =>
           first [discriminate H | inversion H; subst; clear H]
         end.

Lemma opt_Z_eqb_eq o z : opt_Z_eqb o z = true <-> o = Some z.
Proof.
  destruct o as [x |]; simpl.
  - rewrite Z.eqb_eq. split; congruence.
  - split; discriminate.
Qed.


(** Reduces the selections from a finished trace. *)
Ltac reduce_trace :=
  cbv beta iota zeta delta
    [filter is_rpc is_wallet_call is_broadcast is_wait is_fee_query
     is_resolve is_broadcast_or_wait is_signer_query is_address_query
     is_balance_query is_network_query is_console orb app ui log snd fst].


Section MoreProperties.
Context {RT : Runtime}.

(** X1.  Without a connection ([part_000]: no provider or no signer;
    [part_001]: no signer) [sendPayment] returns at once: the status
    becomes "Wallet not connected", nothing else of the state changes and
    the wallet is not called. *)
Theorem sendPayment_needs_connection (v : Variant) w cl :
  match v with
  | part_000 => provider cl = None \/ signer cl = None
  | part_001 => signer cl = None
  end ->
  fst (run (sendPayment v) w cl) = Returned
  /\ final_ui (sendPayment v) w cl
     = apply_update (SetStatus "Wallet not connected") cl
  /\ filter is_wallet_call (trace (sendPayment v) w cl) = [].
Proof.
  destruct v; intros H; unfold_js.
  - destruct H as [H | H]; rewrite H; [| destruct (provider cl)];
      unfold_js; simpl; auto.
  - rewrite H. unfold_js. simpl. auto.
Qed.

(** X2.  [sendPayment] never touches the session: whatever the wallet
    answers, the provider, the signer, the address and the network are
    the same after the run as before, in either variant. *)
Theorem sendPayment_keeps_session (v : Variant) w cl :
  let st := final_ui (sendPayment v) w cl in
  provider st = provider cl /\ signer st = signer cl
  /\ address st = address cl /\ network st = network cl.
Proof.
  destruct v; exec_run; simpl; auto.
Qed.

(** X4.  The hash is shown before the confirmation is awaited: in a run
    whose broadcast is accepted, the broadcast is followed at once by the
    status with the hash of the response, and that by the wait for one
    confirmation on this response; in either variant. *)
Theorem hash_shown_before_wait (v : Variant) w cl sg tx resp :
  In (EvSendTransaction sg tx (Ok resp)) (trace (sendPayment v) w cl) ->
  exists r,
    trace (sendPayment v) w cl
    = (before_broadcast (trace (sendPayment v) w cl)
       ++ EvSendTransaction sg tx (Ok resp)
          :: EvSet (SetStatus (sent_status v resp))
          :: EvWait resp 1 r
          :: after_wait (trace (sendPayment v) w cl))%list.
Proof.
  intros Hsend. narrow Hsend is_broadcast. revert Hsend.
  destruct v; exec_run; cbn [filter is_broadcast is_wait app ui log snd];
    intros Hsend; pick; simpl; eexists; reflexivity.
Qed.

(** X6.  What [part_001] broadcasts: the signer of the session sends the
    parsed amount, an empty amount field counting as ["0"], to the
    recipient as typed, which is a well-formed address, with no fee
    field. *)
Theorem broadcast_request_part_001 w cl sg tx r :
  In (EvSendTransaction sg tx r) (trace Part001.sendPayment w cl) ->
  signer cl = Some sg
  /\ isAddress (recipient cl) = true
  /\ exists value,
      parseEther (Part001.amount_or_zero (amount cl)) = Ok value
      /\ tx = mkTx (recipient cl) value None None None.
Proof.
  intros Hsend. narrow Hsend is_broadcast. revert Hsend.
  exec_run; cbn [filter is_broadcast is_wait app ui log snd];
    intros Hsend; pick; eauto.
Qed.



(** X7.  In [part_000], an amount that passes the number test but that
    [parseEther] throws on ends the submission, for a connected wallet
    and a well-formed recipient, without any wallet call: the error is
    caught, the status reports the failure with the message of the error,
    and the sending flag is off. *)
Theorem unparsable_amount_fails_send w cl e :
  provider cl <> None -> signer cl <> None ->
  Part000.invalid_amount (amount cl) = false ->
  isAddress (trim (recipient cl)) = true ->
  parseEther (amount cl) = Throw e ->
  err_code e <> Some 4001 ->
  let st := final_ui Part000.sendPayment w cl in
  status st = "Send failed: " ++ describe e
  /\ sending st = false
  /\ fst (run Part000.sendPayment w cl) = Normal tt
  /\ filter is_wallet_call (trace Part000.sendPayment w cl) = [].
Proof.
  intros Hp Hs Hamt Haddr Hparse Hcode. unfold_js.
  destruct (provider cl); [| congruence].
  destruct (signer cl); [| congruence].
  unfold_js. rewrite Hamt, Haddr. unfold_js. rewrite Hparse. unfold_js.
  destruct (opt_Z_eqb (err_code e) 4001) eqn:H4001.
  - apply opt_Z_eqb_eq in H4001. congruence.
  - simpl. auto.
Qed.

(** X8.  Which errors escape the handlers.  In [part_000] none does:
    whatever the wallet answers or throws, [sendPayment] and
    [connectWallet] do not end by an exception, nor does the
    [accountsChanged] listener of either variant, given an account list.
    In [part_001], [sendPayment] and [connectWallet] end by an exception
    only when the value they caught is [undefined] or [null], on which
    [err.message] throws inside the catch block. *)
Theorem handlers_catch_errors w cl e :
  (fst (run Part000.sendPayment w cl) <> Thrown e
   /\ fst (run Part000.connectWallet w cl) <> Thrown e
   /\ forall v accounts,
       fst (run (accountsChanged v (Some accounts)) w cl) <> Thrown e)
  /\ (fst (run Part001.sendPayment w cl) = Thrown e ->
      exists u, In (EvConsole "error" (nullish u))
                   (trace Part001.sendPayment w cl))
  /\ (fst (run Part001.connectWallet w cl) = Thrown e ->
      exists u, In (EvConsole "error" (nullish u))
                   (trace Part001.connectWallet w cl)).
Proof.
  split; [split; [| split] | split].
  - exec_run; simpl; discriminate.
  - exec_run; simpl; discriminate.
  - intros v accounts. destruct v; exec_run; simpl; discriminate.
  - exec_run; simpl; intros H; try discriminate H; eexists; auto 20.
  - exec_run; simpl; intros H; try discriminate H; eexists; auto 20.
Qed.

(** X9.  Without a provider [connectWallet] returns at once: the status
    tells that no injected wallet was found, nothing else of the state
    changes and the wallet is not called; in either variant. *)
Theorem connectWallet_needs_provider (v : Variant) w cl :
  provider cl = None ->
  fst (run (connectWallet v) w cl) = Returned
  /\ final_ui (connectWallet v) w cl
     = apply_update
         (SetStatus "No injected wallet found. Install MetaMask or Coinbase Wallet.")
         cl
  /\ filter is_wallet_call (trace (connectWallet v) w cl) = [].
Proof.
  intros H. destruct v; unfold_js; rewrite H; unfold_js; simpl; auto.
Qed.

(** X10.  When the network first reported is the target chain 8453,
    [connectWallet] of [part_001] sends neither a switch nor an add
    request: the account request is its only request to the wallet. *)
Theorem no_switch_on_target_chain w cl net :
  first_network (trace Part001.connectWallet w cl) = Some (Ok net) ->
  chainId net = BASE_CHAIN_ID ->
  filter is_rpc (trace Part001.connectWallet w cl) = [request_accounts (Ok tt)].
Proof.
  unfold request_accounts.
  exec_run; tidy;
    repeat match goal with u : unit |- _ => destruct u end;
    reflexivity.
Qed.

(** X11.  When the wallet refuses the account request, [connectWallet]
    stops there, in either variant: the session is as before and no other
    wallet call is made.  The status reports the failed connection with
    the message of the error; but in [part_001], when the wallet refused
    with [undefined] or [null], the catch block throws, and the status
    stays "Connecting…". *)
Theorem refused_account_access (v : Variant) w cl e :
  In (request_accounts (Throw e)) (trace (connectWallet v) w cl) ->
  let st := final_ui (connectWallet v) w cl in
  (signer st = signer cl /\ address st = address cl
   /\ balance st = balance cl /\ network st = network cl)
  /\ filter is_wallet_call (trace (connectWallet v) w cl)
     = [request_accounts (Throw e)]
  /\ match v, e with
     | part_001, nullish _ =>
       status st = "Connecting…"
       /\ exists t, fst (run (connectWallet v) w cl) = Thrown t
     | _, _ =>
       status st = "Connection failed: " ++ describe e
       /\ fst (run (connectWallet v) w cl) = Normal tt
     end.
Proof.
  unfold request_accounts. intros Hreq. narrow Hreq is_rpc. revert Hreq.
  destruct v; exec_run; reduce_trace;
    intros Hreq; pick; simpl; eauto 10;
    destruct e; simpl; eauto 10.
Qed.

(** X12.  With a provider, [connectWallet] ends with the status
    "Connected" or with a "Connection failed: ..." status; the one other
    end is that of [part_001] when it has caught [undefined] or [null]:
    the catch block throws and the status stays "Connecting…".  Every run
    that gets as far as asking for the signer ends with "Connected",
    whether or not the chain was switched and whether or not the signer
    could be set up; in either variant. *)
Theorem connectWallet_final_status (v : Variant) w cl :
  provider cl <> None ->
  let st := final_ui (connectWallet v) w cl in
  (status st = "Connected"
   \/ (exists e, status st = "Connection failed: " ++ describe e)
   \/ (v = part_001 /\ status st = "Connecting…"
       /\ exists u t,
           In (EvConsole "error" (nullish u)) (trace (connectWallet v) w cl)
           /\ fst (run (connectWallet v) w cl) = Thrown t))
  /\ (forall r, In (EvGetSigner r) (trace (connectWallet v) w cl) ->
                status st = "Connected").
Proof.
  intros Hp.
  destruct v; exec_run; try congruence; simpl;
    (split; [eauto 20 |]);
    intros r Hin; pick; reflexivity.
Qed.

(** X13.  The [accountsChanged] listener, given a non-empty list, sets the
    address to the first account, and setting up the signer replaces it
    by the signer's own address once the signer has answered; in either
    variant. *)
Theorem accountsChanged_address (v : Variant) w cl a rest :
  let tr := trace (accountsChanged v (Some (a :: rest))) w cl in
  let st := final_ui (accountsChanged v (Some (a :: rest))) w cl in
  (forall s addr, In (EvGetAddress s (Ok addr)) tr -> address st = addr)
  /\ (filter is_address_query tr = []
      \/ (exists s e, filter is_address_query tr = [EvGetAddress s (Throw e)]) ->
      address st = a).
Proof.
  destruct v; exec_run; simpl; split; intros;
    repeat match goal with
           | H : _ \/ _ |- _ => destruct H
           | H : exists _, _ |- _ => destruct H
           | H : False |- _ => destruct H
           | H : @eq Event _ _ |- _ =>
             first [discriminate H | inversion H; subst; clear H]
           | H : @eq (list Event) _ _ |- _ =>
             first [discriminate H | inversion H; subst; clear H]
           end; reflexivity.
Qed.

(** X14.  Setting up the signer is not all or nothing: when the balance
    query fails, the signer and the address already set stay, the
    displayed balance and the network are the old ones, and the error is
    caught; in either variant. *)
Theorem setupSigner_partial (v : Variant) w cl addr e :
  In (EvGetBalance addr (Throw e)) (trace (setupSigner v) w cl) ->
  let st := final_ui (setupSigner v) w cl in
  (exists s, In (EvGetSigner (Ok s)) (trace (setupSigner v) w cl)
             /\ signer st = Some s)
  /\ address st = addr
  /\ balance st = balance cl
  /\ network st = network cl
  /\ fst (run (setupSigner v) w cl) = Normal tt.
Proof.
  intros Hbal. narrow Hbal is_balance_query. revert Hbal.
  destruct v;
    exec_run_by ltac:(fun E => cbv beta iota delta [setupSigner] in E);
    reduce_trace;
    intros Hbal; pick; simpl; eauto 10.
Qed.


Lemma string_length_append (s t : string) :
  String.length (s ++ t) = (String.length s + String.length t)%nat.
Proof.
  induction s as [| c s IH]; simpl; [reflexivity | rewrite IH; reflexivity].
Qed.

Lemma string_length_substring (s : string) :
  forall n m, (n + m <= String.length s)%nat ->
              String.length (substring n m s) = m.
Proof.
  induction s as [| c s IH]; intros n m H; simpl in H.
  - destruct n, m; simpl; lia.
  - destruct n as [| n]; destruct m as [| m]; simpl; try reflexivity.
    + rewrite IH by lia. reflexivity.
    + apply IH. lia.
    + apply IH. lia.
Qed.

Lemma slice_head (s : string) (k : nat) :
  (k <= String.length s)%nat ->
  slice s 0 (Some (Z.of_nat k)) = substring 0 k s.
Proof.
  intros H. unfold slice. cbn [Z.ltb Z.compare].
  destruct (Z.ltb_spec (Z.of_nat k) 0) as [Hneg | _]; [lia |].
  rewrite (Z.min_l 0) by lia.
  rewrite (Z.min_l (Z.of_nat k)) by lia.
  rewrite Z.sub_0_r, Z.max_l by lia.
  rewrite Nat2Z.id. reflexivity.
Qed.

Lemma slice_tail (s : string) (k : nat) :
  (0 < k <= String.length s)%nat ->
  slice s (- Z.of_nat k) None = substring (String.length s - k) k s.
Proof.
  intros H. unfold slice.
  destruct (Z.ltb_spec (- Z.of_nat k) 0) as [_ | Hpos]; [| lia].
  rewrite (Z.max_l (Z.of_nat (String.length s) + - Z.of_nat k)) by lia.
  replace (Z.of_nat (String.length s) + - Z.of_nat k)
    with (Z.of_nat (String.length s - k)) by lia.
  replace (Z.of_nat (String.length s) - Z.of_nat (String.length s - k))
    with (Z.of_nat k) by lia.
  rewrite Z.max_l by lia.
  rewrite !Nat2Z.id. reflexivity.
Qed.


(** X17.  [shortAddress] does not fail: an address that [getAddress]
    throws on is shown as it is; one that it accepts is shown in 13
    characters: the first six of the checksummed form, three dots and its
    last four. *)
Theorem shortAddress_shape (getAddress : string -> Result string) addr :
  (forall e, getAddress addr = Throw e ->
             Part000UI.shortAddress getAddress addr = addr)
  /\ (forall s, getAddress addr = Ok s -> (6 <= String.length s)%nat ->
        Part000UI.shortAddress getAddress addr
        = substring 0 6 s ++ "..." ++ substring (String.length s - 4) 4 s
        /\ String.length (Part000UI.shortAddress getAddress addr) = 13%nat).
Proof.
  unfold Part000UI.shortAddress. split.
  - intros e ->. reflexivity.
  - intros s -> Hlen.
    change 6 with (Z.of_nat 6). change (-4) with (- Z.of_nat 4).
    rewrite slice_head, slice_tail by lia.
    split; [reflexivity |].
    rewrite !string_length_append, !string_length_substring by lia. reflexivity.
Qed.

(** X18.  On unmount, [removeListener] being there, [part_000] hands to
    it every listener it registered on mount, under the same event name;
    when [window.ethereum] had [on] at mount, what it hands over is
    exactly what it registered: the two listeners, in the same order.
    [part_001] hands over two new functions, so that none of the
    listeners it registered is removed. *)
Theorem cleanup_of_listeners (at_mount at_unmount : Injected) :
  has_removeListener at_unmount = true ->
  let mounted := Part000UI.mount (Some at_mount) in
  let unmounted := Part000UI.cleanup (Some at_unmount) (snd mounted) in
  (forall l, In l (registered (fst mounted)) -> In l (removed unmounted))
  /\ (has_on at_mount = true ->
      removed unmounted = registered (fst mounted)
      /\ registered (fst mounted)
         = [("accountsChanged", accountsChangedFn);
            ("chainChanged", chainChangedFn)])
  /\ (forall l, In l (registered (fst (Part001UI.mount (Some at_mount)))) ->
                ~ In l (removed (Part001UI.cleanup (Some at_unmount)))).
Proof.
  intros Hrm mounted unmounted. unfold unmounted, mounted.
  unfold Part000UI.mount, Part000UI.cleanup, Part001UI.mount,
    Part001UI.cleanup.
  rewrite Hrm. split; [| split].
  - intros l. destruct (has_on at_mount); simpl; tauto.
  - intros Hon. rewrite Hon. simpl. auto.
  - intros l. destruct (has_on at_mount); simpl;
      intuition (subst; discriminate).
Qed.

(** The state an empty [accountsChanged] leaves. *)
Lemma state_after_reset (v : Variant) w cl :
  final_ui (accountsChanged v (Some [])) w cl
  = mkUi (match v with
          | part_000 => if has_ethereum w then Some InjectedProvider else None
          | part_001 => None
          end)
         None "" (balance (initial_state v)) None
         (recipient cl) (amount cl) "" (sending cl).
Proof.
  destruct v; exec_run; reflexivity.
Qed.

(** X15.  Connecting again after the accounts are gone.  In [part_001]
    the reset drops the provider: the connect button is shown, and
    [connectWallet] then only reports that no injected wallet was found,
    without a wallet call.  In [part_000], with [window.ethereum] there,
    the reset builds a new provider, and [connectWallet] starts with the
    account request. *)
Theorem reconnect_after_reset w0 w cl :
  let left v := final_ui (accountsChanged v (Some [])) w0 cl in
  (Part001UI.shows_connect_button (left part_001) = true
   /\ status (final_ui (connectWallet part_001) w (left part_001))
      = "No injected wallet found. Install MetaMask or Coinbase Wallet."
   /\ filter is_wallet_call (trace (connectWallet part_001) w (left part_001))
      = [])
  /\ (has_ethereum w0 = true ->
      Part000UI.shows_connect_button (left part_000) = true
      /\ exists r rest,
          filter is_wallet_call (trace (connectWallet part_000) w (left part_000))
          = request_accounts r :: rest).
Proof.
  intros left. unfold left. rewrite !state_after_reset. split.
  - split; [reflexivity |].
    unfold_js. simpl. auto.
  - intros Heth. rewrite Heth. split; [reflexivity |].
    unfold request_accounts.
    exec_run;
      try match goal with H : provider _ = None |- _ => discriminate H end;
      reduce_trace; eexists; eexists; reflexivity.
Qed.

(** X16.  The [chainChanged] listener of [part_000] swallows a failed
    network query: the state is left as it was and the error goes to the
    console only.  When the query is answered, the listener ends with the
    status "Switched to network <name> (<chainId>)", whether or not the
    signer could be set up again. *)
Theorem chainChanged_part_000 w cl :
  (forall e,
      first_network (trace Part000UI.chainChanged w cl) = Some (Throw e) ->
      final_ui Part000UI.chainChanged w cl = cl
      /\ trace Part000UI.chainChanged w cl
         = [EvGetNetwork (Throw e); EvConsole "warn" e]
      /\ fst (run Part000UI.chainChanged w cl) = Normal tt)
  /\ (forall net,
        first_network (trace Part000UI.chainChanged w cl) = Some (Ok net) ->
        status (final_ui Part000UI.chainChanged w cl)
        = "Switched to network " ++ name net ++ " ("
          ++ string_of_Z (chainId net) ++ ")"
        /\ fst (run Part000UI.chainChanged w cl) = Normal tt).
Proof.
  split; intros x;
    exec_run_by ltac:(fun E => cbv beta iota delta [Part000UI.chainChanged] in E);
    tidy; auto.
Qed.

(** X19.  In [part_001] an account that comes back does not bring the
    provider back: after an empty and then a non-empty [accountsChanged]
    the provider is still null, while the signer is set as soon as the
    wallet hands one out. *)
Theorem provider_lost_part_001 w0 w cl a rest :
  let left := final_ui (accountsChanged part_001 (Some [])) w0 cl in
  let back := final_ui (accountsChanged part_001 (Some (a :: rest))) w left in
  provider back = None
  /\ forall s,
      In (EvGetSigner (Ok s))
         (trace (accountsChanged part_001 (Some (a :: rest))) w left) ->
      signer back = Some s.
Proof.
  intros left back. unfold back, left. rewrite state_after_reset.
  exec_run; simpl; (split; [reflexivity |]); intros s0 Hin; pick;
    reflexivity.
Qed.

(** X20.  In [part_001], with the provider null, a payment that is
    confirmed cannot refresh the balance: no balance query is made, the
    status reports a failed send, and the form and the displayed balance
    are kept. *)
Theorem confirmed_without_provider_part_001 w cl resp confirms rc :
  provider cl = None ->
  In (EvWait resp confirms (Ok (Some rc))) (trace Part001.sendPayment w cl) ->
  receipt_status rc = Some 1 ->
  let st := final_ui Part001.sendPayment w cl in
  filter is_wallet_call (after_wait (trace Part001.sendPayment w cl)) = []
  /\ (exists e, status st = "Send failed: " ++ describe e)
  /\ recipient st = recipient cl /\ amount st = amount cl
  /\ balance st = balance cl.
Proof.
  intros Hp Hwait Hstatus. narrow Hwait is_wait. revert Hwait.
  exec_run; reduce_trace; intros Hwait; pick; try congruence;
    try match goal with
        | H : opt_Z_eqb (receipt_status _) 1 = false |- _ =>
          rewrite Hstatus in H; discriminate H
        end;
    simpl; eauto 10.
Qed.

(** X21.  The balance check of [part_000] throws: [balBN] is a bigint,
    and [balBN.lt] is not a function.  So [sendPayment] of [part_000]
    never sets the sending flag, asks for no fee suggestion, broadcasts
    nothing and waits for nothing, whatever the wallet answers; and every
    run whose balance query is answered, be the balance above or below
    the amount, ends with the status of a failed send, the form and the
    displayed balance being kept. *)
Theorem balance_check_throws_part_000 w cl :
  let tr := trace Part000.sendPayment w cl in
  let st := final_ui Part000.sendPayment w cl in
  filter is_broadcast_or_wait tr = []
  /\ filter is_fee_query tr = []
  /\ ~ In (EvSet (SetSending true)) tr
  /\ forall balBN,
      first_balance tr = Some (Ok balBN) ->
      status st = "Send failed: balBN.lt is not a function"
      /\ (recipient st = recipient cl /\ amount st = amount cl
          /\ balance st = balance cl)
      /\ fst (run Part000.sendPayment w cl) = Normal tt.
Proof.
  exec_run; reduce_trace; simpl;
    (split; [reflexivity |]); (split; [reflexivity |]);
    (split; [intuition discriminate |]);
    intros balBN Hbal; try discriminate Hbal;
    try match goal with
        | H : opt_Z_eqb (err_code (mkError _ _ _)) 4001 = true |- _ =>
          discriminate H
        end;
    auto.
Qed.

(** X22.  [connectWallet] of [part_000] never asks the wallet to switch
    or to add a chain: the chain identifier, a bigint, always differs
    from the number 8453, and [hexValue], which is to write the parameter
    of the request, is not a function.  Once the network query is
    answered, whatever the chain, both the switch status and the hint to
    switch by hand are shown, the network is asked for once more, and
    the account request stays the only request of the run. *)
Theorem no_chain_request_part_000 w cl :
  let tr := trace Part000.connectWallet w cl in
  (filter is_rpc tr = [] \/ exists r, filter is_rpc tr = [request_accounts r])
  /\ forall net,
      first_network tr = Some (Ok net) ->
      In (EvSet (SetStatus ("You're on " ++ name net
                            ++ " — attempting to switch to Base..."))) tr
      /\ In (EvSet (SetStatus
                      "Please switch your wallet to the Base network manually."))
            tr
      /\ exists r rest,
          filter is_network_query tr = EvGetNetwork (Ok net) :: EvGetNetwork r :: rest.
Proof.
  unfold request_accounts.
  exec_run; reduce_trace; simpl;
    (split; [eauto |]);
    intros net0 Hnet; try discriminate Hnet;
    inversion Hnet; subst; clear Hnet;
    (split; [auto 20 |]); (split; [auto 20 |]); eauto.
Qed.

(** X23.  In [part_001], a submission by a connected wallet that accepts
    the broadcast, with a well-formed recipient and an amount that
    [parseEther] accepts, makes exactly one broadcast call, of that amount
    to the recipient, followed by exactly one wait for a single
    confirmation on its response, and no other broadcast or wait. *)
Theorem one_broadcast_then_one_wait_part_001 w cl value :
  signer cl <> None ->
  isAddress (recipient cl) = true ->
  parseEther (Part001.amount_or_zero (amount cl)) = Ok value ->
  (forall h sg tx, exists resp, w_sendTransaction w h sg tx = Ok resp) ->
  exists sg resp r,
    filter is_broadcast_or_wait (trace Part001.sendPayment w cl)
    = [EvSendTransaction sg (mkTx (recipient cl) value None None None) (Ok resp);
       EvWait resp 1 r].
Proof.
  intros Hs Haddr Hparse Hsend.
  unfold_js.
  destruct (signer cl); [| congruence].
  unfold_js. rewrite Haddr. unfold_js. rewrite Hparse. unfold_js.
  match goal with
  | |- context [w_sendTransaction w ?h ?sg ?tx] =>
    destruct (Hsend h sg tx) as (resp & ->)
  end.
  exec; simpl; do 3 eexists; reflexivity.
Qed.

(** X24.  In [part_001], after an accepted broadcast and a receipt with
    status 1, [sendPayment] (the provider being set) asks the provider
    for the balance of the address again, and for nothing else; when the
    query is answered, the displayed balance becomes the formatted answer
    and both form fields are set to the empty string; when it throws, the
    balance and both form fields stay as they were, and the status is
    not the one of the confirmed payment. *)
Theorem confirmed_payment_refreshes_part_001 w cl sg tx resp rc :
  provider cl <> None ->
  In (EvSendTransaction sg tx (Ok resp)) (trace Part001.sendPayment w cl) ->
  In (EvWait resp 1 (Ok (Some rc))) (trace Part001.sendPayment w cl) ->
  receipt_status rc = Some 1 ->
  let st := final_ui Part001.sendPayment w cl in
  exists r,
    filter is_wallet_call (after_wait (trace Part001.sendPayment w cl))
    = [EvGetBalance (address cl) r]
    /\ (forall newBal, r = Ok newBal ->
          balance st = formatEther newBal
          /\ recipient st = "" /\ amount st = ""
          /\ status st = "Payment confirmed in block "
                         ++ string_of_Z (blockNumber rc) ++ ". Tx: " ++ hash resp)
    /\ (forall e, r = Throw e ->
          balance st = balance cl
          /\ recipient st = recipient cl /\ amount st = amount cl
          /\ match e with
             | nullish _ =>
               status st = "Payment confirmed in block "
                           ++ string_of_Z (blockNumber rc) ++ ". Tx: " ++ hash resp
               /\ exists t, fst (run Part001.sendPayment w cl) = Thrown t
             | _ => status st = "Send failed: " ++ describe e
             end).
Proof.
  intros Hp Hsend Hwait Hstatus.
  narrow Hsend is_broadcast. narrow Hwait is_wait. revert Hsend Hwait.
  exec_run; cbn [filter is_broadcast is_wait app ui log snd];
    intros Hsend Hwait; pick;
    try congruence;
    try match goal with
        | H : opt_Z_eqb (receipt_status _) 1 = false |- _ =>
          rewrite Hstatus in H; discriminate H
        end;
    simpl; eexists; (split; [reflexivity |]); split; intros;
    try match goal with
        | H : Throw _ = Throw _ |- _ => injection H as H; subst
        end;
    tidy; simpl; eauto 10.
Qed.

(** X25.  The listeners of [part_000] are created once, by the mount
    effect, and read the state of the first render, in which no address
    is set, while their setters act on the state of the day.  Run that
    way, the [accountsChanged] listener leaves the state that a handler of
    the latest render would leave, but for the status, and calls the
    wallet alike; whenever setting up the signer fails, it asks to connect
    the wallet, also when an address is on display.  The [chainChanged]
    listener leaves the very state that a handler of the latest render
    would leave. *)
Theorem listeners_read_first_render w current accounts :
  let first := initial_state part_000 in
  let heard := run_in (Part000.accountsChanged accounts) w first current in
  let chain := run_in Part000UI.chainChanged w first current in
  (forall s,
      apply_update (SetStatus s) (ui (snd heard))
      = apply_update (SetStatus s)
          (final_ui (Part000.accountsChanged accounts) w current))
  /\ (forall e, In (EvConsole "warn" e) (log (snd heard)) ->
                status (ui (snd heard))
                = "Please connect wallet (approve account access).")
  /\ filter is_wallet_call (log (snd heard))
     = filter is_wallet_call (trace (Part000.accountsChanged accounts) w current)
  /\ ui (snd chain) = final_ui Part000UI.chainChanged w current.
Proof.
  intros first heard chain. unfold heard, chain, first, run_in, initial_state.
  repeat apply conj.
  - intros s. destruct accounts as [[| a rest] |]; exec; reflexivity.
  - intros e. destruct accounts as [[| a rest] |]; exec;
      try match goal with
          | H : truthy_string _ = true |- _ => discriminate H
          end;
      simpl; intros Hin; pick; reflexivity.
  - destruct accounts as [[| a rest] |]; exec; reflexivity.
  - unfold Part000UI.chainChanged. exec; reflexivity.
Qed.

(** X26.  [sendPayment] of [part_001] broadcasts at most once, whatever
    the wallet does: of broadcast and wait calls a run has none; or one
    broadcast that the wallet refused, with no wait and no second try; or
    one accepted broadcast followed by one wait for a single confirmation
    on its response. *)
Theorem broadcast_at_most_once_part_001 w cl :
  let calls := filter is_broadcast_or_wait (trace Part001.sendPayment w cl) in
  calls = []
  \/ (exists sg tx e, calls = [EvSendTransaction sg tx (Throw e)])
  \/ (exists sg tx resp r,
         calls = [EvSendTransaction sg tx (Ok resp); EvWait resp 1 r]).
Proof.
  exec_run; simpl; eauto 10.
Qed.

End MoreProperties.

(** * The properties on concrete runs

    From here on the imported functions are the reference runtime and the
    wallets are the ones of [Scenario]. *)

#[local] Existing Instance Reference.runtime.
Import Scenario.

(** Finds an event in a computed trace. *)
Ltac in_trace :=
  lazymatch goal with
  | |- In _ _ => vm_compute; repeat (first [left; reflexivity | right])
  end.

(** A run in which the sending flag is set and cleared again. *)
Lemma sendPayment_reenables_submit_witness :
  In (EvSet (SetSending true))
     (trace (sendPayment part_001) happy (filled bob "0.01"))
  /\ filter (fun e => match e with EvSet (SetSending _) => true | _ => false end)
            (trace (sendPayment part_001) happy (filled bob "0.01"))
     = [EvSet (SetSending true); EvSet (SetSending false)]
  /\ submit_disabled (final_ui (sendPayment part_001) happy (filled bob "0.01"))
     = false.
Proof.
  assert (Hin : In (EvSet (SetSending true))
                   (trace (sendPayment part_001) happy (filled bob "0.01")))
    by in_trace.
  refine (conj Hin (conj _ (sendPayment_reenables_submit part_001 _ _ Hin))).
  vm_compute. reflexivity.
Defined.

(** C1 fails on [part_001]: the account is empty, one ether is asked for,
    and the transfer is broadcast all the same. *)
Lemma part_001_broadcasts_beyond_balance :
  let cl := filled bob "1" in
  (forall h, w_getBalance broke h (address cl) = Ok 0)
  /\ parseEther (amount cl) = Ok 1000000000000000000
  /\ 0 < 1000000000000000000
  /\ filter is_broadcast (trace Part001.sendPayment broke cl)
     = [EvSendTransaction (JsonRpcSigner 0)
          (mkTx bob 1000000000000000000 None None None)
          (Ok (mkResponse "0xabc"))]
  /\ status (final_ui Part001.sendPayment broke cl)
     = "Payment confirmed in block 7. Tx: 0xabc".
Proof.
  intros; repeat apply conj; intros; vm_compute; reflexivity.
Qed.

(** The same submission, through the theorem. *)
Lemma part_001_checks_no_balance_witness :
  let cl := filled bob "1" in
  (isAddress (recipient cl) = true
   /\ parseEther (Part001.amount_or_zero (amount cl)) = Ok 1000000000000000000)
  /\ (exists sg r,
         filter is_broadcast (trace Part001.sendPayment broke cl)
         = [EvSendTransaction sg (mkTx bob 1000000000000000000 None None None) r])
  /\ first_balance (before_broadcast (trace Part001.sendPayment broke cl)) = None.
Proof.
  intros cl.
  assert (Ha : isAddress (recipient cl) = true) by (vm_compute; reflexivity).
  assert (Hparse : parseEther (Part001.amount_or_zero (amount cl))
                   = Ok 1000000000000000000) by (vm_compute; reflexivity).
  assert (Hs : signer cl <> None) by discriminate.
  exact (conj (conj Ha Hparse) (part_001_checks_no_balance broke cl Hs Ha Hparse)).
Defined.

(** C2 fails on [part_001]: with the amount field empty, a transfer of
    value 0 is broadcast. *)
Lemma part_001_broadcasts_empty_amount :
  let cl := filled bob "" in
  amount cl = ""
  /\ filter is_broadcast (trace Part001.sendPayment happy cl)
     = [EvSendTransaction (JsonRpcSigner 0) (mkTx bob 0 None None None)
          (Ok (mkResponse "0xabc"))]
  /\ status (final_ui Part001.sendPayment happy cl)
     = "Payment confirmed in block 7. Tx: 0xabc".
Proof.
  intros; repeat apply conj; vm_compute; reflexivity.
Qed.

(** An amount that is not a number is rejected by both variants. *)
Lemma invalid_amount_rejected_witness :
  let cl := filled bob "abc" in
  (isNaN (Number (amount cl)) = true
   /\ isAddress (recipient cl) = true
   /\ parseEther (Part001.amount_or_zero (amount cl)) = Throw Reference.invalid_value)
  /\ (status (final_ui Part000.sendPayment happy cl)
      = "Invalid amount (must be a number > 0)"
      /\ filter is_wallet_call (trace Part000.sendPayment happy cl) = [])
  /\ (status (final_ui Part001.sendPayment happy cl) = "Invalid amount"
      /\ filter is_wallet_call (trace Part001.sendPayment happy cl) = []).
Proof.
  intros cl.
  assert (Hnan : isNaN (Number (amount cl)) = true) by (vm_compute; reflexivity).
  assert (Haddr : isAddress (recipient cl) = true) by (vm_compute; reflexivity).
  assert (Hthrow : parseEther (Part001.amount_or_zero (amount cl))
                   = Throw Reference.invalid_value) by (vm_compute; reflexivity).
  assert (Hp : provider cl <> None) by discriminate.
  assert (Hs : signer cl <> None) by discriminate.
  destruct (invalid_amount_rejected happy cl) as [H0 H1].
  destruct (H0 Hp Hs (or_intror (or_introl Hnan))) as (A & _ & B).
  destruct (H1 _ Hs Haddr Hthrow) as (C & _ & D).
  exact (conj (conj Hnan (conj Haddr Hthrow)) (conj (conj A B) (conj C D))).
Defined.

(** C3 fails on [part_001]: a name the wallet could resolve is turned
    down without a resolution request. *)
Lemma part_001_resolves_no_name :
  let cl := filled "vitalik.eth" "0.01" in
  isAddress (recipient cl) = false
  /\ (forall h, w_resolveName happy h (recipient cl) = Ok (Some vitalik))
  /\ filter is_resolve (trace Part001.sendPayment happy cl) = []
  /\ status (final_ui Part001.sendPayment happy cl) = "Invalid recipient address".
Proof.
  intros; repeat apply conj; intros; vm_compute; reflexivity.
Qed.

(** A name nobody owns: [part_000] asks the wallet and gives up,
    [part_001] gives up at once. *)
Lemma unresolved_recipient_rejected_witness :
  let cl := filled " nobody.eth " "0.01" in
  (Part000.invalid_amount (amount cl) = false
   /\ isAddress (trim (recipient cl)) = false
   /\ isAddress (recipient cl) = false)
  /\ (filter is_wallet_call (trace Part000.sendPayment happy cl)
      = [EvResolveName "nobody.eth" (Ok None)]
      /\ status (final_ui Part000.sendPayment happy cl)
         = "Recipient is not a valid address or resolvable ENS name")
  /\ status (final_ui Part001.sendPayment happy cl) = "Invalid recipient address".
Proof.
  intros cl.
  assert (Hamt : Part000.invalid_amount (amount cl) = false)
    by (vm_compute; reflexivity).
  assert (Ht : isAddress (trim (recipient cl)) = false) by (vm_compute; reflexivity).
  assert (Ha : isAddress (recipient cl) = false) by (vm_compute; reflexivity).
  assert (Hp : provider cl <> None) by discriminate.
  assert (Hs : signer cl <> None) by discriminate.
  destruct (unresolved_recipient_rejected happy cl) as [H0 H1].
  destruct (H0 Hp Hs Hamt Ht) as (r & rest & Hcalls & Hgive_up).
  destruct (H1 Hs Ha) as (C & _ & _).
  assert (Hr : r = Ok None).
  { assert (E : filter is_wallet_call (trace Part000.sendPayment happy cl)
                = [EvResolveName "nobody.eth" (Ok None)])
      by (vm_compute; reflexivity).
    rewrite E in Hcalls. injection Hcalls as Hr _. symmetry. exact Hr. }
  destruct (Hgive_up None Hr eq_refl) as (A & _ & Hrest).
  rewrite Hrest, Hr in Hcalls.
  exact (conj (conj Hamt (conj Ht Ha)) (conj (conj Hcalls A) C)).
Defined.

(** C4.  The submission of the claim: amount [0.01], a checksummed
    recipient, one ether in the account, a wallet that grants every
    request.  [part_000] asks for the balance and then stops: the balance
    comparison throws, nothing is broadcast, nothing is waited for, and
    the status is that of a failed send.  [part_001] on the same
    submission broadcasts once and then waits once. *)
Lemma accepted_payment_not_broadcast :
  let cl := filled bob "0.01" in
  (amount cl = "0.01"
   /\ isAddress (trim (recipient cl)) = true
   /\ parseEther (amount cl) = Ok 10000000000000000
   /\ first_balance (trace Part000.sendPayment happy cl) = Some (Ok one_ether)
   /\ 10000000000000000 <= one_ether)
  /\ (filter is_wallet_call (trace Part000.sendPayment happy cl)
      = [EvGetBalance alice (Ok one_ether)]
      /\ filter is_broadcast_or_wait (trace Part000.sendPayment happy cl) = []
      /\ status (final_ui Part000.sendPayment happy cl)
         = "Send failed: balBN.lt is not a function")
  /\ filter is_broadcast_or_wait (trace Part001.sendPayment happy cl)
     = [EvSendTransaction (JsonRpcSigner 0)
          (mkTx bob 10000000000000000 None None None) (Ok (mkResponse "0xabc"));
        EvWait (mkResponse "0xabc") 1 (Ok (Some (mkReceipt (Some 1) 7)))].
Proof.
  intros; repeat apply conj; try (vm_compute; reflexivity).
  vm_compute. discriminate.
Qed.

(** C5 fails on [part_001]: the rejection is reported like any failure,
    and a failure without the code reads the same. *)
Lemma part_001_reports_rejection_as_failure :
  let cl := filled bob "0.01" in
  err_code user_rejected = Some 4001
  /\ In (EvSendTransaction (JsonRpcSigner 0)
           (mkTx bob 10000000000000000 None None None) (Throw user_rejected))
        (trace Part001.sendPayment declining cl)
  /\ status (final_ui Part001.sendPayment declining cl)
     = "Send failed: User denied transaction signature."
  /\ status (final_ui Part001.sendPayment declining cl)
     = status (final_ui Part001.sendPayment failing cl).
Proof.
  intros; repeat apply conj; first [in_trace | vm_compute; reflexivity].
Qed.

(** The rejected transfer, through the theorem. *)
Lemma rejection_reported_as_failure_witness :
  let cl := filled bob "0.01" in
  let tx := mkTx bob 10000000000000000 None None None in
  (In (EvSendTransaction (JsonRpcSigner 0) tx (Throw user_rejected))
      (trace Part001.sendPayment declining cl)
   /\ err_code user_rejected = Some 4001)
  /\ status (final_ui Part001.sendPayment declining cl)
     = "Send failed: User denied transaction signature."
  /\ recipient (final_ui Part001.sendPayment declining cl) = bob
  /\ amount (final_ui Part001.sendPayment declining cl) = "0.01".
Proof.
  intros cl tx.
  assert (Hin : In (EvSendTransaction (JsonRpcSigner 0) tx (Throw user_rejected))
                   (trace Part001.sendPayment declining cl))
    by in_trace.
  assert (Hc : err_code user_rejected = Some 4001) by reflexivity.
  destruct (rejection_reported_as_failure declining cl _ _ _ Hin Hc)
    as (A & _ & (B & C) & _).
  exact (conj (conj Hin Hc) (conj A (conj B C))).
Defined.

(** C6 fails on [part_001]: the transfer goes out without a fee query,
    though the wallet has a fee suggestion to give. *)
Lemma part_001_asks_no_fee :
  let cl := filled bob "0.01" in
  (forall h, w_getFeeData happy h
             = Ok (Some (mkFeeData (Some 2000000000) (Some 1000000)
                                   (Some 1500000000))))
  /\ filter is_fee_query (trace Part001.sendPayment happy cl) = []
  /\ filter is_broadcast (trace Part001.sendPayment happy cl)
     = [EvSendTransaction (JsonRpcSigner 0)
          (mkTx bob 10000000000000000 None None None)
          (Ok (mkResponse "0xabc"))].
Proof.
  intros; repeat apply conj; intros; vm_compute; reflexivity.
Qed.

(** The same transfer, through the theorem. *)
Lemma part_001_leaves_fees_to_wallet_witness :
  let cl := filled bob "0.01" in
  let tx := mkTx bob 10000000000000000 None None None in
  In (EvSendTransaction (JsonRpcSigner 0) tx (Ok (mkResponse "0xabc")))
     (trace Part001.sendPayment happy cl)
  /\ filter is_fee_query (trace Part001.sendPayment happy cl) = []
  /\ tx_gasPrice tx = None.
Proof.
  intros cl tx.
  assert (Hin : In (EvSendTransaction (JsonRpcSigner 0) tx (Ok (mkResponse "0xabc")))
                   (trace Part001.sendPayment happy cl)) by in_trace.
  destruct (part_001_leaves_fees_to_wallet happy cl) as (A & B).
  destruct (B _ _ _ Hin) as (_ & _ & C).
  exact (conj Hin (conj A C)).
Defined.

(** C7 fails on [part_001]: the wallet, once the chain is added, would
    grant the switch, but the switch is not asked for again. *)
Lemma part_001_does_not_retry_switch :
  let cl := fresh part_001 in
  first_network (trace Part001.connectWallet elsewhere cl) = Some (Ok mainnet)
  /\ chainId mainnet <> BASE_CHAIN_ID
  /\ filter is_rpc (trace Part001.connectWallet elsewhere cl)
     = [request_accounts (Ok tt);
        switch_request (Throw unrecognized_chain);
        add_request (Ok tt)].
Proof.
  intros; repeat apply conj; try (vm_compute; reflexivity).
  vm_compute. discriminate.
Qed.

(** The same run, through the theorem. *)
Lemma switch_then_add_witness :
  let cl := fresh part_001 in
  (first_network (trace Part001.connectWallet elsewhere cl) = Some (Ok mainnet)
   /\ chainId mainnet <> BASE_CHAIN_ID)
  /\ exists r1,
      match r1 with
      | Ok _ =>
        filter is_rpc (trace Part001.connectWallet elsewhere cl)
        = [request_accounts (Ok tt); switch_request r1]
      | Throw _ =>
        exists r2,
        filter is_rpc (trace Part001.connectWallet elsewhere cl)
        = [request_accounts (Ok tt); switch_request r1; add_request r2]
      end.
Proof.
  intros cl.
  assert (Hnet : first_network (trace Part001.connectWallet elsewhere cl)
                 = Some (Ok mainnet)) by (vm_compute; reflexivity).
  assert (Hid : chainId mainnet <> BASE_CHAIN_ID) by (vm_compute; discriminate).
  exact (conj (conj Hnet Hid) (switch_then_add elsewhere cl Hnet Hid)).
Defined.

(** C8.  A transfer of [part_001] that is broadcast and confirmed with
    status 1, after which the form is not cleared and the balance is not
    refreshed.  Once, after the accounts went away and came back: the
    provider is null, the refresh throws on it, and the status tells of a
    failed send.  Once with the provider set, when the node does not
    answer the balance query that follows the confirmation. *)
Lemma confirmed_payment_keeps_form :
  let tx := mkTx bob 10000000000000000 None None None in
  let sent := EvSendTransaction (JsonRpcSigner 0) tx (Ok (mkResponse "0xabc")) in
  let confirmed :=
    EvWait (mkResponse "0xabc") 1 (Ok (Some (mkReceipt (Some 1) 7))) in
  let back :=
    final_ui (accountsChanged part_001 (Some [alice])) happy
      (final_ui (accountsChanged part_001 (Some [])) happy (filled bob "0.01")) in
  (provider back = None /\ signer back = Some (JsonRpcSigner 0)
   /\ filter is_broadcast_or_wait (trace Part001.sendPayment happy back)
      = [sent; confirmed]
   /\ recipient (final_ui Part001.sendPayment happy back) = bob
   /\ amount (final_ui Part001.sendPayment happy back) = "0.01"
   /\ balance (final_ui Part001.sendPayment happy back) = balance back
   /\ status (final_ui Part001.sendPayment happy back)
      = "Send failed: Cannot read properties of null (reading 'getBalance')")
  /\ (filter is_broadcast_or_wait
        (trace Part001.sendPayment flaky (filled bob "0.01"))
      = [sent; confirmed]
      /\ recipient (final_ui Part001.sendPayment flaky (filled bob "0.01")) = bob
      /\ amount (final_ui Part001.sendPayment flaky (filled bob "0.01")) = "0.01"
      /\ balance (final_ui Part001.sendPayment flaky (filled bob "0.01")) = "1.0"
      /\ status (final_ui Part001.sendPayment flaky (filled bob "0.01"))
         = "Send failed: could not detect network").
Proof.
  intros; repeat apply conj; vm_compute; reflexivity.
Qed.

(** * The further properties on concrete runs *)

Import MoreScenarios.

Lemma sendPayment_needs_connection_witness :
  let cl := initial_state part_001 in
  signer cl = None
  /\ final_ui (sendPayment part_001) happy cl
     = apply_update (SetStatus "Wallet not connected") cl.
Proof.
  intros cl.
  assert (H : signer cl = None) by reflexivity.
  exact (conj H (proj1 (proj2 (sendPayment_needs_connection part_001 happy cl H)))).
Defined.

Lemma hash_shown_before_wait_witness :
  let cl := filled bob "0.01" in
  let tx := mkTx bob 10000000000000000 None None None in
  In (EvSendTransaction (JsonRpcSigner 0) tx (Ok (mkResponse "0xabc")))
     (trace (sendPayment part_001) happy cl)
  /\ exists r,
      trace (sendPayment part_001) happy cl
      = (before_broadcast (trace (sendPayment part_001) happy cl)
         ++ EvSendTransaction (JsonRpcSigner 0) tx (Ok (mkResponse "0xabc"))
            :: EvSet (SetStatus "Transaction sent — hash: 0xabc")
            :: EvWait (mkResponse "0xabc") 1 r
            :: after_wait (trace (sendPayment part_001) happy cl))%list.
Proof.
  intros cl tx.
  assert (Hin : In (EvSendTransaction (JsonRpcSigner 0) tx (Ok (mkResponse "0xabc")))
                   (trace (sendPayment part_001) happy cl)) by in_trace.
  exact (conj Hin (hash_shown_before_wait part_001 happy cl _ _ _ Hin)).
Defined.

Lemma broadcast_request_part_001_witness :
  let cl := filled bob "" in
  let tx := mkTx bob 0 None None None in
  In (EvSendTransaction (JsonRpcSigner 0) tx (Ok (mkResponse "0xabc")))
     (trace Part001.sendPayment happy cl)
  /\ isAddress (recipient cl) = true
  /\ exists value,
      parseEther (Part001.amount_or_zero (amount cl)) = Ok value
      /\ tx = mkTx (recipient cl) value None None None.
Proof.
  intros cl tx.
  assert (Hin : In (EvSendTransaction (JsonRpcSigner 0) tx (Ok (mkResponse "0xabc")))
                   (trace Part001.sendPayment happy cl)) by in_trace.
  exact (conj Hin (proj2 (broadcast_request_part_001 happy cl _ _ _ Hin))).
Defined.

Lemma unparsable_amount_fails_send_witness :
  let cl := filled bob "1e3" in
  (Part000.invalid_amount (amount cl) = false
   /\ isAddress (trim (recipient cl)) = true
   /\ parseEther (amount cl) = Throw Reference.invalid_value)
  /\ status (final_ui Part000.sendPayment happy cl)
     = "Send failed: invalid decimal value"
  /\ filter is_wallet_call (trace Part000.sendPayment happy cl) = [].
Proof.
  intros cl.
  assert (Hamt : Part000.invalid_amount (amount cl) = false)
    by (vm_compute; reflexivity).
  assert (Ha : isAddress (trim (recipient cl)) = true) by (vm_compute; reflexivity).
  assert (Hparse : parseEther (amount cl) = Throw Reference.invalid_value)
    by (vm_compute; reflexivity).
  assert (Hp : provider cl <> None) by discriminate.
  assert (Hs : signer cl <> None) by discriminate.
  assert (Hc : err_code Reference.invalid_value <> Some 4001) by discriminate.
  destruct (unparsable_amount_fails_send happy cl Hp Hs Hamt Ha Hparse Hc)
    as (A & _ & _ & B).
  exact (conj (conj Hamt (conj Ha Hparse)) (conj A B)).
Defined.

Lemma connectWallet_needs_provider_witness :
  let cl := initial_state part_000 in
  provider cl = None
  /\ final_ui (connectWallet part_000) happy cl
     = apply_update
         (SetStatus "No injected wallet found. Install MetaMask or Coinbase Wallet.")
         cl.
Proof.
  intros cl.
  assert (H : provider cl = None) by reflexivity.
  exact (conj H (proj1 (proj2 (connectWallet_needs_provider part_000 happy cl H)))).
Defined.

Lemma handlers_catch_errors_witness :
  let cl := fresh part_001 in
  let oops :=
    TypeError "Cannot read properties of undefined (reading 'message')" in
  fst (run Part001.connectWallet silent cl) = Thrown oops
  /\ status (final_ui Part001.connectWallet silent cl) = "Connecting…"
  /\ exists u, In (EvConsole "error" (nullish u))
                  (trace Part001.connectWallet silent cl).
Proof.
  intros cl oops.
  assert (H : fst (run Part001.connectWallet silent cl) = Thrown oops)
    by (vm_compute; reflexivity).
  refine (conj H (conj _ (proj2 (proj2 (handlers_catch_errors silent cl oops)) H))).
  vm_compute. reflexivity.
Defined.

Lemma no_switch_on_target_chain_witness :
  let cl := fresh part_001 in
  (first_network (trace Part001.connectWallet happy cl) = Some (Ok base)
   /\ chainId base = BASE_CHAIN_ID)
  /\ filter is_rpc (trace Part001.connectWallet happy cl)
     = [request_accounts (Ok tt)].
Proof.
  intros cl.
  assert (Hn : first_network (trace Part001.connectWallet happy cl)
               = Some (Ok base)) by (vm_compute; reflexivity).
  assert (Hc : chainId base = BASE_CHAIN_ID) by reflexivity.
  exact (conj (conj Hn Hc) (no_switch_on_target_chain happy cl Hn Hc)).
Defined.

Lemma refused_account_access_witness :
  (In (request_accounts (Throw user_rejected))
      (trace (connectWallet part_001) locked (fresh part_001))
   /\ In (request_accounts (Throw (nullish true)))
         (trace (connectWallet part_001) silent (fresh part_001))
   /\ In (request_accounts (Throw (nullish true)))
         (trace (connectWallet part_000) silent (fresh part_000)))
  /\ status (final_ui (connectWallet part_001) locked (fresh part_001))
     = "Connection failed: User denied transaction signature."
  /\ status (final_ui (connectWallet part_001) silent (fresh part_001))
     = "Connecting…"
  /\ status (final_ui (connectWallet part_000) silent (fresh part_000))
     = "Connection failed: undefined".
Proof.
  assert (H1 : In (request_accounts (Throw user_rejected))
                  (trace (connectWallet part_001) locked (fresh part_001)))
    by in_trace.
  assert (H2 : In (request_accounts (Throw (nullish true)))
                  (trace (connectWallet part_001) silent (fresh part_001)))
    by in_trace.
  assert (H3 : In (request_accounts (Throw (nullish true)))
                  (trace (connectWallet part_000) silent (fresh part_000)))
    by in_trace.
  destruct (refused_account_access part_001 locked _ _ H1) as (_ & _ & A & _).
  destruct (refused_account_access part_001 silent _ _ H2) as (_ & _ & B & _).
  destruct (refused_account_access part_000 silent _ _ H3) as (_ & _ & C & _).
  exact (conj (conj H1 (conj H2 H3)) (conj A (conj B C))).
Defined.

Lemma connectWallet_final_status_witness :
  let cl := fresh part_000 in
  (provider cl <> None
   /\ In (EvGetSigner (Ok (JsonRpcSigner 0)))
         (trace (connectWallet part_000) no_balance cl))
  /\ status (final_ui (connectWallet part_000) no_balance cl) = "Connected".
Proof.
  intros cl.
  assert (Hp : provider cl <> None) by discriminate.
  assert (Hin : In (EvGetSigner (Ok (JsonRpcSigner 0)))
                   (trace (connectWallet part_000) no_balance cl)) by in_trace.
  exact (conj (conj Hp Hin)
              (proj2 (connectWallet_final_status part_000 no_balance cl Hp) _ Hin)).
Defined.

Lemma accountsChanged_address_witness :
  let cl := initial_state part_000 in
  In (EvGetAddress (JsonRpcSigner 0) (Ok alice))
     (trace (accountsChanged part_000 (Some [bob])) happy cl)
  /\ address (final_ui (accountsChanged part_000 (Some [bob])) happy cl) = alice.
Proof.
  intros cl.
  assert (Hin : In (EvGetAddress (JsonRpcSigner 0) (Ok alice))
                   (trace (accountsChanged part_000 (Some [bob])) happy cl))
    by in_trace.
  exact (conj Hin (proj1 (accountsChanged_address part_000 happy cl bob []) _ _ Hin)).
Defined.

Lemma setupSigner_partial_witness :
  let cl := fresh part_000 in
  In (EvGetBalance alice (Throw rpc_down)) (trace (setupSigner part_000) no_balance cl)
  /\ address (final_ui (setupSigner part_000) no_balance cl) = alice
  /\ balance (final_ui (setupSigner part_000) no_balance cl) = "0.0".
Proof.
  intros cl.
  assert (Hin : In (EvGetBalance alice (Throw rpc_down))
                   (trace (setupSigner part_000) no_balance cl)) by in_trace.
  destruct (setupSigner_partial part_000 no_balance cl _ _ Hin)
    as (_ & A & B & _).
  exact (conj Hin (conj A B)).
Defined.

Lemma reconnect_after_reset_witness :
  let cl := filled bob "0.01" in
  has_ethereum happy = true
  /\ exists r rest,
      filter is_wallet_call
        (trace (connectWallet part_000) happy
           (final_ui (accountsChanged part_000 (Some [])) happy cl))
      = request_accounts r :: rest.
Proof.
  intros cl.
  assert (H : has_ethereum happy = true) by reflexivity.
  exact (conj H (proj2 (proj2 (reconnect_after_reset happy happy cl) H))).
Defined.

Lemma chainChanged_part_000_witness :
  let cl := filled bob "0.01" in
  (first_network (trace Part000UI.chainChanged offline cl) = Some (Throw rpc_down)
   /\ first_network (trace Part000UI.chainChanged happy cl) = Some (Ok base))
  /\ final_ui Part000UI.chainChanged offline cl = cl
  /\ status (final_ui Part000UI.chainChanged happy cl)
     = "Switched to network base (8453)".
Proof.
  intros cl.
  assert (H0 : first_network (trace Part000UI.chainChanged offline cl)
               = Some (Throw rpc_down)) by (vm_compute; reflexivity).
  assert (H1 : first_network (trace Part000UI.chainChanged happy cl)
               = Some (Ok base)) by (vm_compute; reflexivity).
  destruct (proj1 (chainChanged_part_000 offline cl) _ H0) as (A & _).
  destruct (proj2 (chainChanged_part_000 happy cl) _ H1) as (B & _).
  exact (conj (conj H0 H1) (conj A B)).
Defined.

Lemma shortAddress_shape_witness :
  (checksum "nobody" = Throw invalid_address
   /\ checksum bob = Ok bob /\ (6 <= String.length bob)%nat)
  /\ Part000UI.shortAddress checksum "nobody" = "nobody"
  /\ Part000UI.shortAddress checksum bob = "0x5aAe...eAed".
Proof.
  assert (H0 : checksum "nobody" = Throw invalid_address) by reflexivity.
  assert (H1 : checksum bob = Ok bob) by reflexivity.
  assert (H2 : (6 <= String.length bob)%nat) by (vm_compute; lia).
  pose proof (proj1 (shortAddress_shape checksum "nobody") _ H0) as A.
  destruct (proj2 (shortAddress_shape checksum bob) _ H1 H2) as (B & _).
  exact (conj (conj H0 (conj H1 H2)) (conj A B)).
Defined.

Lemma cleanup_of_listeners_witness :
  let eth := mkInjected true true in
  (has_removeListener eth = true /\ has_on eth = true)
  /\ removed (Part000UI.cleanup (Some eth) (snd (Part000UI.mount (Some eth))))
     = [("accountsChanged", accountsChangedFn); ("chainChanged", chainChangedFn)]
  /\ registered (fst (Part001UI.mount (Some eth)))
     = [("accountsChanged", accountsChangedFn); ("chainChanged", chainChangedFn)]
  /\ ~ In ("accountsChanged", accountsChangedFn)
          (removed (Part001UI.cleanup (Some eth))).
Proof.
  intros eth.
  assert (H : has_removeListener eth = true) by reflexivity.
  assert (Hon : has_on eth = true) by reflexivity.
  destruct (cleanup_of_listeners eth eth H) as (_ & A & B).
  destruct (A Hon) as (A1 & A2).
  split; [exact (conj H Hon) |].
  split; [exact (eq_trans A1 A2) |]. split; [reflexivity |].
  apply B. simpl. left. reflexivity.
Defined.

Lemma provider_lost_part_001_witness :
  let cl := filled bob "0.01" in
  let left := final_ui (accountsChanged part_001 (Some [])) happy cl in
  In (EvGetSigner (Ok (JsonRpcSigner 0)))
     (trace (accountsChanged part_001 (Some [alice])) happy left)
  /\ provider (final_ui (accountsChanged part_001 (Some [alice])) happy left) = None
  /\ signer (final_ui (accountsChanged part_001 (Some [alice])) happy left)
     = Some (JsonRpcSigner 0).
Proof.
  intros cl left.
  assert (Hin : In (EvGetSigner (Ok (JsonRpcSigner 0)))
                   (trace (accountsChanged part_001 (Some [alice])) happy left))
    by in_trace.
  destruct (provider_lost_part_001 happy happy cl alice []) as (A & B).
  exact (conj Hin (conj A (B _ Hin))).
Defined.

Lemma confirmed_without_provider_part_001_witness :
  let cl := orphaned bob "0.01" in
  let rc := mkReceipt (Some 1) 7 in
  (provider cl = None
   /\ In (EvWait (mkResponse "0xabc") 1 (Ok (Some rc)))
         (trace Part001.sendPayment happy cl))
  /\ filter is_wallet_call (after_wait (trace Part001.sendPayment happy cl)) = []
  /\ recipient (final_ui Part001.sendPayment happy cl) = bob.
Proof.
  intros cl rc.
  assert (Hp : provider cl = None) by reflexivity.
  assert (Hin : In (EvWait (mkResponse "0xabc") 1 (Ok (Some rc)))
                   (trace Part001.sendPayment happy cl)) by in_trace.
  destruct (confirmed_without_provider_part_001 happy cl _ _ _ Hp Hin eq_refl)
    as (A & _ & B & _).
  exact (conj (conj Hp Hin) (conj A B)).
Defined.

Lemma balance_check_throws_part_000_witness :
  let cl := filled bob "0.01" in
  (first_balance (trace Part000.sendPayment happy cl) = Some (Ok one_ether)
   /\ first_balance (trace Part000.sendPayment broke cl) = Some (Ok 0))
  /\ status (final_ui Part000.sendPayment happy cl)
     = "Send failed: balBN.lt is not a function"
  /\ status (final_ui Part000.sendPayment broke cl)
     = "Send failed: balBN.lt is not a function".
Proof.
  intros cl.
  assert (H1 : first_balance (trace Part000.sendPayment happy cl)
               = Some (Ok one_ether)) by (vm_compute; reflexivity).
  assert (H0 : first_balance (trace Part000.sendPayment broke cl) = Some (Ok 0))
    by (vm_compute; reflexivity).
  destruct (balance_check_throws_part_000 happy cl) as (_ & _ & _ & A).
  destruct (balance_check_throws_part_000 broke cl) as (_ & _ & _ & B).
  exact (conj (conj H1 H0) (conj (proj1 (A _ H1)) (proj1 (B _ H0)))).
Defined.

Lemma no_chain_request_part_000_witness :
  let cl := fresh part_000 in
  (first_network (trace Part000.connectWallet happy cl) = Some (Ok base)
   /\ first_network (trace Part000.connectWallet elsewhere cl) = Some (Ok mainnet))
  /\ In (EvSet (SetStatus "Please switch your wallet to the Base network manually."))
        (trace Part000.connectWallet happy cl)
  /\ filter is_rpc (trace Part000.connectWallet elsewhere cl)
     = [request_accounts (Ok tt)]
  /\ status (final_ui Part000.connectWallet elsewhere cl) = "Connected".
Proof.
  intros cl.
  assert (H1 : first_network (trace Part000.connectWallet happy cl)
               = Some (Ok base)) by (vm_compute; reflexivity).
  assert (H2 : first_network (trace Part000.connectWallet elsewhere cl)
               = Some (Ok mainnet)) by (vm_compute; reflexivity).
  destruct (proj2 (no_chain_request_part_000 happy cl) _ H1) as (_ & A & _).
  split; [exact (conj H1 H2) |]. split; [exact A |].
  split; vm_compute; reflexivity.
Defined.

Lemma one_broadcast_then_one_wait_part_001_witness :
  let cl := filled bob "0.01" in
  (isAddress (recipient cl) = true
   /\ parseEther (Part001.amount_or_zero (amount cl)) = Ok 10000000000000000)
  /\ exists sg resp r,
      filter is_broadcast_or_wait (trace Part001.sendPayment happy cl)
      = [EvSendTransaction sg (mkTx bob 10000000000000000 None None None) (Ok resp);
         EvWait resp 1 r].
Proof.
  intros cl.
  assert (Ha : isAddress (recipient cl) = true) by (vm_compute; reflexivity).
  assert (Hparse : parseEther (Part001.amount_or_zero (amount cl))
                   = Ok 10000000000000000) by (vm_compute; reflexivity).
  assert (Hs : signer cl <> None) by discriminate.
  assert (Hsend : forall h sg tx,
             exists resp, w_sendTransaction happy h sg tx = Ok resp)
    by (intros; eexists; reflexivity).
  exact (conj (conj Ha Hparse)
              (one_broadcast_then_one_wait_part_001 happy cl Hs Ha Hparse Hsend)).
Defined.

Lemma confirmed_payment_refreshes_part_001_witness :
  let cl := filled bob "0.01" in
  let tx := mkTx bob 10000000000000000 None None None in
  let st := final_ui Part001.sendPayment happy cl in
  (In (EvSendTransaction (JsonRpcSigner 0) tx (Ok (mkResponse "0xabc")))
      (trace Part001.sendPayment happy cl)
   /\ In (EvWait (mkResponse "0xabc") 1 (Ok (Some (mkReceipt (Some 1) 7))))
         (trace Part001.sendPayment happy cl))
  /\ filter is_wallet_call (after_wait (trace Part001.sendPayment happy cl))
     = [EvGetBalance alice (Ok 989979000000000000)]
  /\ balance st = formatEther 989979000000000000
  /\ recipient st = "" /\ amount st = "".
Proof.
  intros cl tx st.
  assert (Hsend : In (EvSendTransaction (JsonRpcSigner 0) tx (Ok (mkResponse "0xabc")))
                     (trace Part001.sendPayment happy cl)) by in_trace.
  assert (Hwait : In (EvWait (mkResponse "0xabc") 1
                        (Ok (Some (mkReceipt (Some 1) 7))))
                     (trace Part001.sendPayment happy cl)) by in_trace.
  assert (Hp : provider cl <> None) by discriminate.
  destruct (confirmed_payment_refreshes_part_001 happy cl _ _ _ _
              Hp Hsend Hwait eq_refl) as (r & Hcalls & Hok & _).
  assert (E : filter is_wallet_call
                (after_wait (trace Part001.sendPayment happy cl))
              = [EvGetBalance alice (Ok 989979000000000000)])
    by (vm_compute; reflexivity).
  assert (Hr : r = Ok 989979000000000000).
  { rewrite E in Hcalls. injection Hcalls as Hr. symmetry. exact Hr. }
  destruct (Hok _ Hr) as (A & B & C & _).
  exact (conj (conj Hsend Hwait) (conj E (conj A (conj B C)))).
Defined.

Lemma listeners_read_first_render_witness :
  let cl := filled bob "0.01" in
  let heard :=
    run_in (Part000.accountsChanged (Some [alice])) no_balance
           (initial_state part_000) cl in
  In (EvConsole "warn" rpc_down) (log (snd heard))
  /\ status (ui (snd heard)) = "Please connect wallet (approve account access)."
  /\ status (final_ui (Part000.accountsChanged (Some [alice])) no_balance cl) = "".
Proof.
  intros cl heard.
  assert (Hin : In (EvConsole "warn" rpc_down) (log (snd heard))) by in_trace.
  refine (conj Hin (conj
            (proj1 (proj2 (listeners_read_first_render no_balance cl
                             (Some [alice]))) _ Hin) _)).
  vm_compute. reflexivity.
Defined.

(** ** The reference runtime on a few inputs *)

Example ref_Number_001 :
  Reference.Number "0.01" = S754_finite false 5764607523034235 (-59).
Proof. vm_compute. reflexivity. Qed.

Example ref_Number_01 :
  Reference.Number " 1e-1 " = S754_finite false 7205759403792794 (-56).
Proof. vm_compute. reflexivity. Qed.

Example ref_Number_abc : Reference.Number "abc" = S754_nan.
Proof. vm_compute. reflexivity. Qed.

Example ref_Number_tiny : Reference.Number "1e-400" = S754_zero false.
Proof. vm_compute. reflexivity. Qed.

Example ref_Number_hex : Reference.Number "0x10" = S754_finite false 4503599627370496 (-48).
Proof. vm_compute. reflexivity. Qed.

Example ref_parseEther_001 : Reference.parseEther "0.01" = Ok 10000000000000000.
Proof. vm_compute. reflexivity. Qed.

Example ref_formatEther : Reference.formatEther 1500000000000000000 = "1.5".
Proof. vm_compute. reflexivity. Qed.

Example ref_formatEther0 : Reference.formatEther 0 = "0.0".
Proof. vm_compute. reflexivity. Qed.

Example ref_hexValue : Reference.hexValue 8453 = "0x2105".
Proof. vm_compute. reflexivity. Qed.

Example ref_isAddress : Reference.isAddress "0x5aAeb6053F3E94C9b9A09f33669435E7Ef1BeAed" = true.
Proof. vm_compute. reflexivity. Qed.

Example ref_isAddress_bare :
  Reference.isAddress "5aaeb6053f3e94c9b9a09f33669435e7ef1beaed" = true.
Proof. vm_compute. reflexivity. Qed.

Example ref_isAddress_checksum :
  Reference.isAddress "0x5aaeb6053F3E94C9b9A09f33669435E7Ef1BeAed" = false.
Proof. vm_compute. reflexivity. Qed.
